(** * cadquery-mcp: workspace, object lifecycle, boolean and export pipeline

    A shallow embedding of [cadquery_fastmcp.py] and of the tools that
    [cq_editor_bridge.py] registers on the same server, followed by the
    properties of the workspace/object model that the specification states.

    The CadQuery kernel, the exporters, the host file system and the editor
    process are external collaborators: they are gathered in the record
    [Env] and every theorem quantifies over it.  So is the script handed to
    [execute_cq_script]: [exec] runs it inside the server's own interpreter,
    where it can rewrite the workspace table, leave through [SystemExit] or
    never come back.  Everything the Python code itself decides (name
    resolution, registration, current-object tracking, format dispatch,
    post-export validation, error conversion) is modelled as executable
    functions over an explicit server state. *)

From Stdlib Require Import Ascii String Floats.SpecFloat.
From stdpp Require Import gmap strings pretty list fin_maps.

Open Scope string_scope.

(** ** Python values used by the server *)

(** A Python dict with string keys.  Insertion order is observable through
    [list(d.keys())], so the dict is an association list kept in insertion
    order with at most one entry per key. *)
Module PyDict.

Definition t (V : Type) : Type := list (string * V).

Fixpoint get {V} (k : string) (d : t V) : option V :=
  match d with
  | [] => None
  | (k', v) :: d' => if String.eqb k' k then Some v else get k d'
  end.

(** [k in d] *)
Definition mem {V} (k : string) (d : t V) : bool :=
  match get k d with Some _ => true | None => false end.

(** [d[k] = v]: an existing key keeps its position, a new key goes last. *)
Fixpoint set {V} (k : string) (v : V) (d : t V) : t V :=
  match d with
  | [] => [(k, v)]
  | (k', v') :: d' =>
      if String.eqb k' k then (k, v) :: d' else (k', v') :: set k v d'
  end.

(** [len(d)] *)
Definition len {V} (d : t V) : nat := length d.

(** [list(d.keys())] *)
Definition keys {V} (d : t V) : list string := d.*1.

End PyDict.

(** A reference held by the server to a value living in the interpreter:
    either [None] or an opaque object of the geometry kernel. *)
Inductive pyval : Type :=
| PyNone
| PyObj (handle : nat).

(** An entry of the [searched_paths] list of [diagnose_cq_editor]: the
    dictionary [{"path": ..., "exists": ...}] or a ["Found: ..."] string. *)
Inductive searched : Type :=
| Probed (path : string) (found : bool)
| Found (text : string).

(** Values that occur in the dictionaries returned to the caller: strings,
    numbers, lists of names, the nested [files] and [dimensions]
    dictionaries, and the [searched_paths] list. *)
Inductive value : Type :=
| VNone
| VStr (s : string)
| VInt (n : nat)
| VFloat (f : spec_float)
| VStrList (l : list string)
| VStrDict (d : PyDict.t string)
| VFloatDict (d : PyDict.t spec_float)
| VSearched (l : list searched).

Definition payload : Type := PyDict.t value.

(** Exceptions: the instances of [Exception], which are what the kernel,
    the exporters and the file system raise and what [except Exception]
    catches; [str_exn] is Python's [str(e)].  What is raised outside this
    class ([SystemExit], [KeyboardInterrupt]) can only come from a script
    and is an outcome of its own, see [script_run]. *)
Inductive exn : Type :=
| KeyError (key : string)
| Exception (msg : string).

Definition str_exn (e : exn) : string :=
  match e with
  | KeyError k => "'" +:+ k +:+ "'"
  | Exception m => m
  end.

(** Outcome of a call: a returned value or a raised exception. *)
Inductive result (A : Type) : Type :=
| Ok (a : A)
| Raise (e : exn).
Arguments Ok {A} a.
Arguments Raise {A} e.

(** ** String helpers: [str.lower], [str.upper], [str.endswith], [in]

    Strings are sequences of 8-bit characters; case conversion acts on the
    ASCII letters, which are the only ones the format and suffix tests
    look at. *)

Definition ascii_lower (c : ascii) : ascii :=
  let n := nat_of_ascii c in
  if (65 <=? n)%nat && (n <=? 90)%nat then ascii_of_nat (n + 32) else c.

Definition ascii_upper (c : ascii) : ascii :=
  let n := nat_of_ascii c in
  if (97 <=? n)%nat && (n <=? 122)%nat then ascii_of_nat (n - 32) else c.

Fixpoint lower (s : string) : string :=
  match s with
  | EmptyString => EmptyString
  | String c s' => String (ascii_lower c) (lower s')
  end.

Fixpoint upper (s : string) : string :=
  match s with
  | EmptyString => EmptyString
  | String c s' => String (ascii_upper c) (upper s')
  end.

(** [s.endswith(suffix)] *)
Definition endswith (suffix s : string) : bool :=
  let n := String.length s in
  let k := String.length suffix in
  (k <=? n)%nat && String.eqb (substring (n - k) k s) suffix.

(** [needle in hay] for strings *)
Fixpoint contains (needle hay : string) : bool :=
  String.prefix needle hay
  || match hay with
     | EmptyString => false
     | String _ hay' => contains needle hay'
     end.

(** [f.readline()] on a file opened in text mode with universal newlines:
    the first line, its terminator (LF, CR or CR LF) read as a line feed. *)
Fixpoint readline (content : string) : string :=
  match content with
  | EmptyString => EmptyString
  | String c rest =>
      if Ascii.eqb c "010"%char || Ascii.eqb c "013"%char
      then String "010"%char EmptyString
      else String c (readline rest)
  end.

(** ** Server state *)

(** An entry of [workspace["objects"]], tagged by its ['type'] key.  The
    ['workplane'] key is present only when the kernel is available. *)
Inductive ModelObject : Type :=
| BoxObj (width length height : spec_float) (centered : bool)
         (workplane : option pyval)
| CylinderObj (radius height : spec_float) (centered : bool)
              (workplane : option pyval)
| BooleanObj (operation target tool : string) (workplane : option pyval)
| ScriptObj (script : string) (workplane : option pyval).

Definition workplane_key (o : ModelObject) : option pyval :=
  match o with
  | BoxObj _ _ _ _ w | CylinderObj _ _ _ w | BooleanObj _ _ _ w
  | ScriptObj _ w => w
  end.

(** The ["assembly"] entry is an opaque kernel object that no tool reads;
    it is left out. *)
Record Workspace : Type := {
  objects : PyDict.t ModelObject;
  current_object : option string
}.

Definition empty_workspace : Workspace :=
  {| objects := []; current_object := None |}.

(** Module globals [workspaces] and [current_workspace_id], and the files
    the server has written or may read. *)
Record State : Type := {
  workspaces : gmap string Workspace;
  current_workspace_id : string;
  fs : gmap string string
}.

(** ** External collaborators *)

Inductive ExportTypes : Type := STEP.

(** What [exec(script, {}, local_scope)] can do.  The script runs in the
    server's interpreter with the builtins at hand, so it reaches the module
    globals [workspaces] and [current_workspace_id] (through [sys.modules])
    and the file system: it leaves the server in a state of its choosing.
    - [Completes (Ok bound) st']: [exec] returned; [bound] is
      [local_scope["result"]], or [None] when the script binds no [result];
    - [Completes (Raise e) st']: the script raised an [Exception];
    - [Exits st']: the script raised [SystemExit], [KeyboardInterrupt] or
      another exception that is no [Exception];
    - [Loops]: the script never returns.
    A script changes the workspaces it reaches in place: rebinding the key
    of a workspace to another dictionary, registering one dictionary under
    two keys, and rebinding the server's own functions are not
    represented. *)
Inductive script_run : Type :=
| Completes (r : result (option pyval)) (st' : State)
| Exits (st' : State)
| Loops.

(** What [diagnose_cq_editor] asks of the interpreter and of the host. *)
Record Installation : Type := {
  sys_executable : string;
  exec_prefix : string;
  (* os.environ.get(name) *)
  os_environ_get : string -> option string;
  os_path_exists : string -> bool;
  os_listdir : string -> result (list string);
  (* importlib.util.find_spec(name): no spec, or a spec and its origin *)
  find_spec : string -> result (option (option string))
}.

(** The geometry kernel, the exporters, the host file system and the editor
    process.  A kernel call either returns a handle or raises; an export
    either raises or returns after writing the given text at the given
    path.  [exporters_export shape path None] is the two-argument call
    (format chosen from the file extension); [Some STEP] is the call with
    [exporters.ExportTypes.STEP] and the fixed tolerances 0.001 / 0.1.
    A collaborator is a function of its arguments: what it would answer at
    another time (a STEP file carries the time of its export) is not
    represented, and no statement rests on two STEP exports writing the
    same text. *)
Record Env : Type := {
  CADQUERY_AVAILABLE : bool;
  temp_dir : string;
  bridge_temp_dir : string;
  os_path_join : string -> string -> string;
  (* cq.Workplane("XY").box(width, length, height[, centered=False]) *)
  cq_box : spec_float -> spec_float -> spec_float -> bool -> result pyval;
  (* cq.Workplane("XY").cylinder(height, radius) *)
  cq_cylinder : spec_float -> spec_float -> result pyval;
  cq_union : pyval -> pyval -> result pyval;
  cq_cut : pyval -> pyval -> result pyval;
  cq_intersect : pyval -> pyval -> result pyval;
  (* hasattr(w, "val") and w.val and hasattr(w, "findSolid") *)
  has_val_and_findSolid : pyval -> bool;
  cq_findSolid : pyval -> result pyval;
  exporters_export : pyval -> string -> option ExportTypes -> result string;
  (* exec(script, {}, {"cq": cq}), started in the given state *)
  exec_script : string -> State -> script_run;
  (* open(path, 'w') and open(path, 'r') beyond mere existence *)
  os_open_w : string -> result unit;
  os_open_r : string -> result unit;
  (* ctx.info(text) *)
  ctx_info : string -> result unit;
  (* outcome of bridge.start_cq_editor() / bridge.stop_cq_editor() *)
  start_cq_editor : bool;
  stop_cq_editor : bool;
  installation : Installation
}.

(** ** A state and exception monad for the tools *)

Definition M (A : Type) : Type := State -> result A * State.

#[global] Instance M_ret : MRet M := fun A a st => (Ok a, st).

#[global] Instance M_bind : MBind M := fun A B k m st =>
  match m st with
  | (Ok a, st') => k a st'
  | (Raise e, st') => (Raise e, st')
  end.

(** [try: body / except Exception as e: handler e].  Every [exn] is an
    instance of [Exception], so the handler takes them all; what a script
    raises outside that class never reaches a handler, see
    [execute_cq_script]. *)
Definition try_except {A} (body : M A) (handler : exn -> M A) : M A :=
  fun st =>
    match body st with
    | (Ok a, st') => (Ok a, st')
    | (Raise e, st') => handler e st'
    end.

(** A call into a collaborator that does not touch the server state. *)
Definition lift {A} (r : result A) : M A := fun st => (r, st).

(** What comes back from a request.  A tool that runs no script returns or
    raises an [Exception]; [execute_cq_script] can also be left by what its
    [except Exception] does not catch, or never return. *)
Inductive reply (A : Type) : Type :=
| Done (r : result A)
| Exit
| Hang.
Arguments Done {A} r.
Arguments Exit {A}.
Arguments Hang {A}.

Definition answered {A} (m : M A) : State -> reply A * State := fun st =>
  let '(r, st') := m st in (Done r, st').

(** ** Primitive actions on the state *)

(** [get_current_workspace()]: [workspaces[current_workspace_id]]. *)
Definition get_current_workspace : M Workspace := fun st =>
  match workspaces st !! current_workspace_id st with
  | Some ws => (Ok ws, st)
  | None => (Raise (KeyError (current_workspace_id st)), st)
  end.

(** Reading the global [current_workspace_id]. *)
Definition read_current_workspace_id : M string := fun st =>
  (Ok (current_workspace_id st), st).

(** Assignments through the alias [workspace] reach the dict stored in
    [workspaces] under the active id. *)
Definition update_workspace (f : Workspace -> Workspace) : M unit := fun st =>
  (Ok tt,
   {| workspaces := alter f (current_workspace_id st) (workspaces st);
      current_workspace_id := current_workspace_id st;
      fs := fs st |}).

(** Assignments through an alias [workspace] taken while [id] was the
    active workspace, after the active workspace may have changed: they
    reach the dict registered under [id], if it is still registered. *)
Definition update_workspace_at (id : string) (f : Workspace -> Workspace)
    : M unit := fun st =>
  (Ok tt,
   {| workspaces := alter f id (workspaces st);
      current_workspace_id := current_workspace_id st;
      fs := fs st |}).

(** [workspace["objects"][name] = obj] *)
Definition set_object (name : string) (obj : ModelObject) : M unit :=
  update_workspace (fun ws =>
    {| objects := PyDict.set name obj (objects ws);
       current_object := current_object ws |}).

(** [workspace["current_object"] = name] *)
Definition set_current_object (name : string) : M unit :=
  update_workspace (fun ws =>
    {| objects := objects ws; current_object := Some name |}).

Definition put_file (path content : string) (st : State) : State :=
  {| workspaces := workspaces st;
     current_workspace_id := current_workspace_id st;
     fs := <[path := content]> (fs st) |}.

(** [exporters.export(shape, path[, STEP, tolerance=..., angularTolerance=...])] *)
Definition export (env : Env) (shape : pyval) (path : string)
    (ty : option ExportTypes) : M unit := fun st =>
  match exporters_export env shape path ty with
  | Ok content => (Ok tt, put_file path content st)
  | Raise e => (Raise e, st)
  end.

(** [with open(path, 'w') as f: f.write(content)] *)
Definition write_file (env : Env) (path content : string) : M unit := fun st =>
  match os_open_w env path with
  | Ok _ => (Ok tt, put_file path content st)
  | Raise e => (Raise e, st)
  end.

(** [open(path, 'r')] followed by [read].  The text is handed back as it
    was written: the newline translation and the encoding of text-mode
    files are not represented, and statements about the text read back
    are made for [plain_text] only. *)
Definition open_r (env : Env) (path : string) : M string := fun st =>
  match os_open_r env path with
  | Ok _ =>
      match fs st !! path with
      | Some content => (Ok content, st)
      | None => (Raise (Exception ("No such file or directory: '" +:+ path +:+ "'")), st)
      end
  | Raise e => (Raise e, st)
  end.

(** [d[k]] raising [KeyError] *)
Definition getitem {V} (k : string) (d : PyDict.t V) : result V :=
  match PyDict.get k d with
  | Some v => Ok v
  | None => Raise (KeyError k)
  end.

(** [obj["workplane"]] *)
Definition getitem_workplane (o : ModelObject) : result pyval :=
  match workplane_key o with
  | Some w => Ok w
  | None => Raise (KeyError "workplane")
  end.

(** [obj.get("workplane")] *)
Definition get_workplane (o : ModelObject) : pyval :=
  match workplane_key o with
  | Some w => w
  | None => PyNone
  end.

(** The two dictionary shapes every failure is reported with. *)
Definition error_payload (message : string) : payload :=
  [("status", VStr "error"); ("message", VStr message)].

Definition option_value (o : option string) : value :=
  match o with
  | Some s => VStr s
  | None => VNone
  end.

(** ** Tools of [cadquery_fastmcp.py] *)

Definition get_workspace_info (env : Env) : M payload :=
  workspace ← get_current_workspace;
  workspace_id ← read_current_workspace_id;
  mret [("workspace_id", VStr workspace_id);
        ("object_count", VInt (PyDict.len (objects workspace)));
        ("objects", VStrList (PyDict.keys (objects workspace)));
        ("current_object", option_value (current_object workspace));
        ("temp_directory", VStr (temp_dir env))].

Definition create_workspace (name : string) : M payload := fun st =>
  match workspaces st !! name with
  | Some _ =>
      (Ok (error_payload ("Workspace '" +:+ name +:+ "' already exists")), st)
  | None =>
      (Ok [("status", VStr "success");
           ("message", VStr ("Created workspace: " +:+ name));
           ("workspace_id", VStr name)],
       {| workspaces := <[name := empty_workspace]> (workspaces st);
          current_workspace_id := name;
          fs := fs st |})
  end.

Definition switch_workspace (name : string) : M payload := fun st =>
  match workspaces st !! name with
  | None =>
      (Ok (error_payload ("Workspace '" +:+ name +:+ "' does not exist")), st)
  | Some _ =>
      (Ok [("status", VStr "success");
           ("message", VStr ("Switched to workspace: " +:+ name));
           ("workspace_id", VStr name)],
       {| workspaces := workspaces st;
          current_workspace_id := name;
          fs := fs st |})
  end.

Definition create_box (env : Env) (width length height : spec_float)
    (centered : bool) (name : option string) : M payload :=
  workspace ← get_current_workspace;
  let name :=
    match name with
    | None => "box_" +:+ pretty (PyDict.len (objects workspace))
    | Some n => n
    end in
  let stl_path := os_path_join env (temp_dir env) (name +:+ ".stl") in
  (if CADQUERY_AVAILABLE env then
     box ← lift (cq_box env width length height centered);
     set_object name (BoxObj width length height centered (Some box));;
     set_current_object name;;
     export env box stl_path None
   else
     set_object name (BoxObj width length height centered None);;
     set_current_object name;;
     write_file env stl_path "Mock STL file content");;
  mret [("status", VStr "success");
        ("message", VStr ("Created box: " +:+ name));
        ("object_id", VStr name);
        ("dimensions", VFloatDict [("width", width); ("length", length);
                                   ("height", height)]);
        ("files", VStrDict [("stl", stl_path)])].

Definition create_cylinder (env : Env) (radius height : spec_float)
    (centered : bool) (name : option string) : M payload :=
  workspace ← get_current_workspace;
  let name :=
    match name with
    | None => "cylinder_" +:+ pretty (PyDict.len (objects workspace))
    | Some n => n
    end in
  let stl_path := os_path_join env (temp_dir env) (name +:+ ".stl") in
  (if CADQUERY_AVAILABLE env then
     cylinder ← lift (cq_cylinder env height radius);
     set_object name (CylinderObj radius height centered (Some cylinder));;
     set_current_object name;;
     export env cylinder stl_path None
   else
     set_object name (CylinderObj radius height centered None);;
     set_current_object name;;
     write_file env stl_path "Mock STL file content");;
  mret [("status", VStr "success");
        ("message", VStr ("Created cylinder: " +:+ name));
        ("object_id", VStr name);
        ("dimensions", VFloatDict [("radius", radius); ("height", height)]);
        ("files", VStrDict [("stl", stl_path)])].

(** The [if/elif/else] on [operation] in the kernel branch; [None] is the
    [else] that returns the error dictionary. *)
Definition boolean_dispatch (env : Env) (operation : string)
    (target_obj tool_obj : pyval) : option (result pyval) :=
  if String.eqb operation "union" then Some (cq_union env target_obj tool_obj)
  else if String.eqb operation "subtract" then Some (cq_cut env target_obj tool_obj)
  else if String.eqb operation "intersect" then Some (cq_intersect env target_obj tool_obj)
  else None.

Definition boolean_operation (env : Env) (operation target tool : string)
    (name : option string) : M payload :=
  workspace ← get_current_workspace;
  if negb (PyDict.mem target (objects workspace)) then
    mret (error_payload ("Target object '" +:+ target +:+ "' not found"))
  else if negb (PyDict.mem tool (objects workspace)) then
    mret (error_payload ("Tool object '" +:+ tool +:+ "' not found"))
  else
    let name :=
      match name with
      | None => "boolean_" +:+ pretty (PyDict.len (objects workspace))
      | Some n => n
      end in
    let stl_path := os_path_join env (temp_dir env) (name +:+ ".stl") in
    let success :=
      [("status", VStr "success");
       ("message", VStr ("Created " +:+ operation +:+ " between " +:+ target
                         +:+ " and " +:+ tool));
       ("object_id", VStr name);
       ("files", VStrDict [("stl", stl_path)])] in
    if CADQUERY_AVAILABLE env then
      target_entry ← lift (getitem target (objects workspace));
      target_obj ← lift (getitem_workplane target_entry);
      tool_entry ← lift (getitem tool (objects workspace));
      tool_obj ← lift (getitem_workplane tool_entry);
      match boolean_dispatch env operation target_obj tool_obj with
      | None =>
          mret (error_payload ("Unknown boolean operation: " +:+ operation))
      | Some call =>
          result ← lift call;
          set_object name (BooleanObj operation target tool (Some result));;
          set_current_object name;;
          export env result stl_path None;;
          mret success
      end
    else
      set_object name (BooleanObj operation target tool None);;
      set_current_object name;;
      write_file env stl_path
        ("Mock STL file for " +:+ operation +:+ " of " +:+ target
         +:+ " and " +:+ tool);;
      mret success.

Definition render_current_object (env : Env) : M payload :=
  workspace ← get_current_workspace;
  match current_object workspace with
  | None => mret (error_payload "No current object selected")
  | Some obj_name =>
      let mock_image_path :=
        os_path_join env (temp_dir env) (obj_name +:+ ".png") in
      if CADQUERY_AVAILABLE env then
        try_except
          (lift (ctx_info env ("Rendering " +:+ obj_name +:+ "..."));;
           write_file env mock_image_path "Mock PNG content";;
           mret [("status", VStr "success");
                 ("message", VStr ("Rendered " +:+ obj_name));
                 ("object_id", VStr obj_name);
                 ("files", VStrDict [("png", mock_image_path)])])
          (fun e =>
             mret (error_payload ("Error rendering object: " +:+ str_exn e)))
      else
        write_file env mock_image_path "Mock PNG content";;
        mret [("status", VStr "success");
              ("message", VStr ("Rendered " +:+ obj_name +:+ " (mock)"));
              ("object_id", VStr obj_name);
              ("files", VStrDict [("png", mock_image_path)])]
  end.

(** The STEP export shared by [export_object] and [export_step]: a solid
    is extracted when the stored value offers [findSolid], otherwise the
    stored value itself is exported. *)
Definition export_as_step (env : Env) (workplane : pyval)
    (output_path : string) : M unit :=
  if has_val_and_findSolid env workplane then
    solid ← lift (cq_findSolid env workplane);
    export env solid output_path (Some STEP)
  else
    export env workplane output_path (Some STEP).

(** [os.path.exists(path) and os.path.getsize(path) > 0] *)
Definition exists_and_nonempty (path : string) : M bool := fun st =>
  (Ok match fs st !! path with
      | Some content => negb (String.eqb content "")
      | None => false
      end, st).

(** The validation block of [export_object]; [Some d] is an early
    [return d], [None] falls through to the final [return]. *)
Definition validate_step_file (env : Env) (output_path : string)
    : M (option payload) :=
  written ← exists_and_nonempty output_path;
  if written : bool then
    try_except
      (content ← open_r env output_path;
       let first_line := readline content in
       if String.eqb first_line "" || negb (contains "ISO-10303" first_line)
       then mret (Some (error_payload
                   "Exported file does not appear to be a valid STEP file"))
       else mret None)
      (fun file_error =>
         mret (Some (error_payload
                 ("Exported file validation failed: " +:+ str_exn file_error))))
  else
    mret (Some (error_payload
            "Exported file is empty or wasn't created properly")).

Definition export_object (env : Env) (name format : string) (validate : bool)
    : M payload :=
  workspace ← get_current_workspace;
  if negb (PyDict.mem name (objects workspace)) then
    mret (error_payload ("Object '" +:+ name +:+ "' not found"))
  else
    let format := lower format in
    let is_step_format := String.eqb format "step" || String.eqb format "stp" in
    let extension := format in
    let output_path :=
      os_path_join env (temp_dir env) (name +:+ "." +:+ extension) in
    let success :=
      [("status", VStr "success");
       ("message", VStr ("Exported " +:+ name +:+ " to " +:+ extension
                         +:+ " format"));
       ("object_id", VStr name);
       ("files", VStrDict [(extension, output_path)])] in
    if CADQUERY_AVAILABLE env then
      obj ← lift (getitem name (objects workspace));
      let workplane := get_workplane obj in
      early ← try_except
        (if String.eqb format "stl" then
           export env workplane output_path None;;
           mret None
         else if is_step_format then
           export_as_step env workplane output_path;;
           if validate && is_step_format
           then validate_step_file env output_path
           else mret None
         else
           mret (Some (error_payload
                   ("Unsupported export format: " +:+ format
                    +:+ ". Supported formats: stl, step, stp"))))
        (fun e =>
           mret (Some (error_payload ("Export failed: " +:+ str_exn e))));
      match early with
      | Some d => mret d
      | None => mret success
      end
    else
      write_file env output_path
        (if is_step_format
         then "Mock STEP file content for " +:+ name
         else "Mock " +:+ upper format +:+ " file content for " +:+ name);;
      mret success.

Definition export_step (env : Env) (name : string) (filepath : option string)
    : M payload :=
  workspace ← get_current_workspace;
  if negb (PyDict.mem name (objects workspace)) then
    mret (error_payload ("Object '" +:+ name +:+ "' not found"))
  else
    let default_path := os_path_join env (temp_dir env) (name +:+ ".step") in
    let output_path :=
      match filepath with
      | Some filepath =>
          if String.eqb filepath "" then default_path
          else if negb (endswith ".step" (lower filepath)
                        || endswith ".stp" (lower filepath))
               then filepath +:+ ".step"
               else filepath
      | None => default_path
      end in
    let stl_path := os_path_join env (temp_dir env) (name +:+ ".stl") in
    let success output_path :=
      [("status", VStr "success");
       ("message", VStr ("Exported " +:+ name +:+ " as STEP file"));
       ("object_id", VStr name);
       ("files", VStrDict [("step", output_path); ("stl", stl_path)])] in
    if CADQUERY_AVAILABLE env then
      try_except
        (obj ← lift (getitem name (objects workspace));
         let workplane := get_workplane obj in
         export_as_step env workplane output_path;;
         export env workplane stl_path None;;
         mret (success output_path))
        (fun e =>
           mret (error_payload ("STEP export failed: " +:+ str_exn e)))
    else
      let output_path :=
        if String.eqb output_path "" then default_path else output_path in
      write_file env output_path ("Mock STEP file content for " +:+ name);;
      write_file env stl_path ("Mock STL file content for " +:+ name);;
      mret (success output_path).

(** The [try] block of [execute_cq_script] once [exec] has come back with
    [r]; [workspace] is the alias taken before the script ran, [id] the
    workspace id it was taken under. *)
Definition store_script_result (env : Env) (script name id : string)
    (r : result (option pyval)) : M payload :=
  let stl_path := os_path_join env (temp_dir env) (name +:+ ".stl") in
  try_except
    (bound ← lift r;
     match bound with
     | None =>
         mret (error_payload
           "Script must define a 'result' variable containing the CadQuery object")
     | Some result =>
         update_workspace_at id (fun ws =>
           {| objects := PyDict.set name (ScriptObj script (Some result))
                           (objects ws);
              current_object := current_object ws |});;
         update_workspace_at id (fun ws =>
           {| objects := objects ws; current_object := Some name |});;
         export env result stl_path None;;
         mret [("status", VStr "success");
               ("message", VStr ("Created object from script: " +:+ name));
               ("object_id", VStr name);
               ("files", VStrDict [("stl", stl_path)])]
     end)
    (fun e =>
       mret (error_payload ("Error executing script: " +:+ str_exn e))).

(** [except Exception] catches what a completed run raised; a run that
    [Exits] leaves the tool, a run that [Loops] keeps it from returning. *)
Definition execute_cq_script (env : Env) (script : string)
    (name : option string) : State -> reply payload * State := fun st =>
  match get_current_workspace st with
  | (Raise e, st) => (Done (Raise e), st)
  | (Ok workspace, st) =>
      let name :=
        match name with
        | None => "script_" +:+ pretty (PyDict.len (objects workspace))
        | Some n => n
        end in
      let stl_path := os_path_join env (temp_dir env) (name +:+ ".stl") in
      if CADQUERY_AVAILABLE env then
        match exec_script env script st with
        | Completes r st1 =>
            answered
              (store_script_result env script name (current_workspace_id st) r)
              st1
        | Exits st1 => (Exit, st1)
        | Loops => (Hang, st)
        end
      else
        answered
          (set_object name (ScriptObj script None);;
           set_current_object name;;
           write_file env stl_path "Mock STL file content from script";;
           mret [("status", VStr "success");
                 ("message",
                  VStr ("Created object from script (mock): " +:+ name));
                 ("object_id", VStr name);
                 ("files", VStrDict [("stl", stl_path)])])
          st
  end.

(** ** Tools registered by [integrate_with_mcp_server] in [cq_editor_bridge.py]

    The bridge is built with [get_workspace_func = get_current_workspace],
    so [bridge.get_workspace] is never [None] and is that function. *)

(** The directories [diagnose_cq_editor] looks into. *)
Definition search_paths (env : Env) : list string :=
  [os_path_join env (exec_prefix (installation env)) "Scripts";
   os_path_join env (exec_prefix (installation env)) "bin";
   "C:\Users\Senthil\miniconda3\envs\cadquery\Scripts"].

(** The inner loop over [os.listdir(dir_path)]. *)
Fixpoint found_in (env : Env) (dir_path : string) (files : list string)
    : list searched :=
  match files with
  | [] => []
  | file :: files' =>
      if contains "cq" (lower file) && contains "editor" (lower file)
      then Found ("Found: " +:+ os_path_join env dir_path file)
           :: found_in env dir_path files'
      else found_in env dir_path files'
  end.

(** The outer loop over [search_paths]; [os.listdir] is not guarded. *)
Fixpoint search (env : Env) (dirs : list string) : M (list searched) :=
  match dirs with
  | [] => mret []
  | dir_path :: dirs' =>
      found ←
        (if os_path_exists (installation env) dir_path then
           files ← lift (os_listdir (installation env) dir_path);
           mret (found_in env dir_path files)
         else mret []);
      rest ← search env dirs';
      mret (Probed dir_path (os_path_exists (installation env) dir_path)
            :: (found ++ rest)%list)
  end.

Definition diagnose_cq_editor (env : Env) : M payload :=
  searched_paths ← search env (search_paths env);
  let results :=
    [("python_executable", VStr (sys_executable (installation env)));
     ("conda_environment",
      VStr (default "None"
              (os_environ_get (installation env) "CONDA_DEFAULT_ENV")));
     ("searched_paths", VSearched searched_paths)] in
  match find_spec (installation env) "cq_editor" with
  | Ok (Some origin) =>
      mret (PyDict.set "cq_editor_module" (option_value origin) results)
  | Ok None => mret results
  | Raise _ =>
      mret (PyDict.set "cq_editor_module" (VStr "Error finding module")
              results)
  end.

(** [bridge.script_file] *)
Definition script_file (env : Env) : string :=
  os_path_join env (bridge_temp_dir env) "current_script.py".

Definition launch_cq_editor (env : Env) : M payload :=
  if start_cq_editor env then
    mret [("status", VStr "success");
          ("message", VStr "CadQuery Editor launched successfully")]
  else
    mret (error_payload "Failed to launch CadQuery Editor").

Definition close_cq_editor (env : Env) : M payload :=
  if stop_cq_editor env then
    mret [("status", VStr "success");
          ("message", VStr "CadQuery Editor closed successfully")]
  else
    mret (error_payload "Failed to close CadQuery Editor").

(** [CQEditorBridge.update_script] *)
Definition update_script (env : Env) (script_content : string) : M bool :=
  try_except
    (write_file env (script_file env) script_content;; mret true)
    (fun _ => mret false).

Definition update_cq_script (env : Env) (script : string) : M payload :=
  success ← update_script env script;
  if success : bool then
    mret [("status", VStr "success");
          ("message", VStr "Script updated in CadQuery Editor");
          ("script_file", VStr (script_file env))]
  else
    mret (error_payload "Failed to update script in CadQuery Editor").

Definition sync_object_from_editor (env : Env) (name : option string)
    : M payload :=
  workspace ← get_current_workspace;
  let name :=
    match name with
    | None => "synced_" +:+ pretty (PyDict.len (objects workspace))
    | Some n => n
    end in
  try_except
    (script ← open_r env (script_file env);
     mret [("status", VStr "success");
           ("message", VStr ("Synced object from CQ-Editor: " +:+ name));
           ("object_id", VStr name);
           ("script", VStr script)])
    (fun e =>
       mret (error_payload ("Error syncing from CQ-Editor: " +:+ str_exn e))).

(** ** The server as a whole *)

(** A request to one of the tools. *)
Inductive Op : Type :=
| CreateWorkspace (name : string)
| SwitchWorkspace (name : string)
| GetWorkspaceInfo
| CreateBox (width length height : spec_float) (centered : bool)
            (name : option string)
| CreateCylinder (radius height : spec_float) (centered : bool)
                 (name : option string)
| BooleanOperation (operation target tool : string) (name : option string)
| RenderCurrentObject
| ExportObject (name format : string) (validate : bool)
| ExportStep (name : string) (filepath : option string)
| ExecuteCqScript (script : string) (name : option string)
| DiagnoseCqEditor
| LaunchCqEditor
| CloseCqEditor
| UpdateCqScript (script : string)
| SyncObjectFromEditor (name : option string).

Definition call (env : Env) (op : Op) : State -> reply payload * State :=
  match op with
  | CreateWorkspace name => answered (create_workspace name)
  | SwitchWorkspace name => answered (switch_workspace name)
  | GetWorkspaceInfo => answered (get_workspace_info env)
  | CreateBox w l h c name => answered (create_box env w l h c name)
  | CreateCylinder r h c name => answered (create_cylinder env r h c name)
  | BooleanOperation o t u name =>
      answered (boolean_operation env o t u name)
  | RenderCurrentObject => answered (render_current_object env)
  | ExportObject name format validate =>
      answered (export_object env name format validate)
  | ExportStep name filepath => answered (export_step env name filepath)
  | ExecuteCqScript script name => execute_cq_script env script name
  | DiagnoseCqEditor => answered (diagnose_cq_editor env)
  | LaunchCqEditor => answered (launch_cq_editor env)
  | CloseCqEditor => answered (close_cq_editor env)
  | UpdateCqScript script => answered (update_cq_script env script)
  | SyncObjectFromEditor name => answered (sync_object_from_editor env name)
  end.

Definition LF : string := String "010"%char EmptyString.

(** State after the module has been imported: the default workspace is
    registered and active, and the bridge has written its initial script. *)
Definition initial_state (env : Env) : State :=
  {| workspaces := {["default" := empty_workspace]};
     current_workspace_id := "default";
     fs := {[script_file env :=
               "import cadquery as cq" +:+ LF +:+ LF
               +:+ "# Initial empty script" +:+ LF
               +:+ "result = cq.Workplane('XY')"]} |}.

(** The state left by a sequence of requests; a request that raises keeps
    whatever it had already written to the state.  A request that never
    returns is the last one the server takes up: it is given the state it
    started in, which no later request observes differently. *)
Fixpoint run_ops (env : Env) (ops : list Op) (st : State) : State :=
  match ops with
  | [] => st
  | op :: ops' => run_ops env ops' (call env op st).2
  end.







(** ** Reading the specification's vocabulary off the model *)

(** [name in workspace["objects"]] *)
Definition registered (name : string) (ws : Workspace) : Prop :=
  is_Some (PyDict.get name (objects ws)).




Definition is_success (d : payload) : Prop :=
  PyDict.get "status" d = Some (VStr "success").

Definition is_error (d : payload) : Prop :=
  PyDict.get "status" d = Some (VStr "error").

(** The error classes of the specification, read off the messages the code
    produces. *)
Definition NotFound (d : payload) : Prop :=
  exists n,
    d = error_payload ("Object '" +:+ n +:+ "' not found")
    \/ d = error_payload ("Target object '" +:+ n +:+ "' not found")
    \/ d = error_payload ("Tool object '" +:+ n +:+ "' not found")
    \/ d = error_payload ("Workspace '" +:+ n +:+ "' does not exist").


Definition UnsupportedFormat (d : payload) : Prop :=
  exists f,
    d = error_payload ("Unsupported export format: " +:+ f
                       +:+ ". Supported formats: stl, step, stp").

Definition ValidationError (d : payload) : Prop :=
  d = error_payload "Exported file does not appear to be a valid STEP file"
  \/ (exists m, d = error_payload ("Exported file validation failed: " +:+ m))
  \/ d = error_payload "Exported file is empty or wasn't created properly".

(** What a registration does to a workspace: the two assignments
    [workspace["objects"][name] = obj; workspace["current_object"] = name]. *)
Definition register (name : string) (obj : ModelObject) (ws : Workspace)
    : Workspace :=
  {| objects := PyDict.set name obj (objects ws);
     current_object := Some name |}.


(** The dictionary [export_object] returns on success. *)
Definition export_success (env : Env) (name ext : string) : payload :=
  [("status", VStr "success");
   ("message", VStr ("Exported " +:+ name +:+ " to " +:+ ext +:+ " format"));
   ("object_id", VStr name);
   ("files", VStrDict [(ext, os_path_join env (temp_dir env)
                               (name +:+ "." +:+ ext))])].

(** The dictionary [export_step] returns on success. *)
Definition export_step_success (env : Env) (name output_path : string)
    : payload :=
  [("status", VStr "success");
   ("message", VStr ("Exported " +:+ name +:+ " as STEP file"));
   ("object_id", VStr name);
   ("files", VStrDict [("step", output_path);
                       ("stl", os_path_join env (temp_dir env)
                                 (name +:+ ".stl"))])].





(** ** Concrete collaborators used to exercise the model *)

(** [posixpath.join] for two components. *)
Definition posix_join (a b : string) : string :=
  if String.prefix "/" b then b
  else if String.eqb a "" || endswith "/" a then a +:+ b
  else a +:+ "/" +:+ b.

(** An installation with the editor's launcher in [/usr/bin] and no
    [cq_editor] module, and one whose [/usr/bin] cannot be listed. *)
Definition plain_installation : Installation :=
  {| sys_executable := "/usr/bin/python3";
     exec_prefix := "/usr";
     os_environ_get := fun _ => None;
     os_path_exists := fun path => String.eqb path "/usr/bin";
     os_listdir := fun _ => Ok ["python3"; "cq-editor"];
     find_spec := fun _ => Ok None |}.


(** A host without CadQuery: the server runs in mock mode, every file can
    be written and read. *)
Definition mock_env : Env :=
  {| CADQUERY_AVAILABLE := false;
     temp_dir := "/tmp/cadquery_mcp_a";
     bridge_temp_dir := "/tmp/cadquery_mcp_b";
     os_path_join := posix_join;
     cq_box := fun _ _ _ _ => Raise (Exception "name 'cq' is not defined");
     cq_cylinder := fun _ _ => Raise (Exception "name 'cq' is not defined");
     cq_union := fun _ _ => Raise (Exception "name 'cq' is not defined");
     cq_cut := fun _ _ => Raise (Exception "name 'cq' is not defined");
     cq_intersect := fun _ _ => Raise (Exception "name 'cq' is not defined");
     has_val_and_findSolid := fun _ => false;
     cq_findSolid := fun _ => Raise (Exception "name 'cq' is not defined");
     exporters_export := fun _ _ _ =>
       Raise (Exception "name 'exporters' is not defined");
     exec_script := fun _ st =>
       Completes (Raise (Exception "name 'cq' is not defined")) st;
     os_open_w := fun _ => Ok tt;
     os_open_r := fun _ => Ok tt;
     ctx_info := fun _ => Ok tt;
     start_cq_editor := false;
     stop_cq_editor := true;
     installation := plain_installation |}.

(** A host with a working kernel whose STEP exporter writes [step_text]
    and whose mesh exporter writes [stl_text]. *)
Definition kernel_env (step_text stl_text : string) : Env :=
  {| CADQUERY_AVAILABLE := true;
     temp_dir := "/tmp/cadquery_mcp_a";
     bridge_temp_dir := "/tmp/cadquery_mcp_b";
     os_path_join := posix_join;
     cq_box := fun _ _ _ _ => Ok (PyObj 1);
     cq_cylinder := fun _ _ => Ok (PyObj 2);
     cq_union := fun _ _ => Ok (PyObj 3);
     cq_cut := fun _ _ => Ok (PyObj 4);
     cq_intersect := fun _ _ => Ok (PyObj 5);
     has_val_and_findSolid := fun w =>
       match w with PyObj _ => true | PyNone => false end;
     cq_findSolid := fun w => Ok w;
     exporters_export := fun _ _ ty =>
       match ty with
       | Some STEP => Ok step_text
       | None => Ok stl_text
       end;
     exec_script := fun _ st => Completes (Ok (Some (PyObj 6))) st;
     os_open_w := fun _ => Ok tt;
     os_open_r := fun _ => Ok tt;
     ctx_info := fun _ => Ok tt;
     start_cq_editor := true;
     stop_cq_editor := true;
     installation := plain_installation |}.

(** A host whose kernel builds shapes but whose exporter always fails. *)
Definition failing_export_env : Env :=
  {| CADQUERY_AVAILABLE := true;
     temp_dir := "/tmp/cadquery_mcp_a";
     bridge_temp_dir := "/tmp/cadquery_mcp_b";
     os_path_join := posix_join;
     cq_box := fun _ _ _ _ => Ok (PyObj 1);
     cq_cylinder := fun _ _ => Ok (PyObj 2);
     cq_union := fun _ _ => Ok (PyObj 3);
     cq_cut := fun _ _ => Ok (PyObj 4);
     cq_intersect := fun _ _ => Ok (PyObj 5);
     has_val_and_findSolid := fun _ => false;
     cq_findSolid := fun w => Ok w;
     exporters_export := fun _ _ _ => Raise (Exception "disk full");
     exec_script := fun _ st => Completes (Ok (Some (PyObj 6))) st;
     os_open_w := fun _ => Ok tt;
     os_open_r := fun _ => Ok tt;
     ctx_info := fun _ => Ok tt;
     start_cq_editor := true;
     stop_cq_editor := true;
     installation := plain_installation |}.

(** A host whose STEP exporter works but whose mesh exporter fails. *)
Definition step_only_env : Env :=
  {| CADQUERY_AVAILABLE := true;
     temp_dir := "/tmp/cadquery_mcp_a";
     bridge_temp_dir := "/tmp/cadquery_mcp_b";
     os_path_join := posix_join;
     cq_box := fun _ _ _ _ => Ok (PyObj 1);
     cq_cylinder := fun _ _ => Ok (PyObj 2);
     cq_union := fun _ _ => Ok (PyObj 3);
     cq_cut := fun _ _ => Ok (PyObj 4);
     cq_intersect := fun _ _ => Ok (PyObj 5);
     has_val_and_findSolid := fun _ => false;
     cq_findSolid := fun w => Ok w;
     exporters_export := fun _ _ ty =>
       match ty with
       | Some STEP => Ok "ISO-10303-21;"
       | None => Raise (Exception "mesh export failed")
       end;
     exec_script := fun _ st => Completes (Ok (Some (PyObj 6))) st;
     os_open_w := fun _ => Ok tt;
     os_open_r := fun _ => Ok tt;
     ctx_info := fun _ => Ok tt;
     start_cq_editor := true;
     stop_cq_editor := true;
     installation := plain_installation |}.









(** A host with a working kernel and STEP exporter whose mesh exporter
    fails. *)
Definition mesh_failing_env : Env :=
  {| CADQUERY_AVAILABLE := true;
     temp_dir := "/tmp/cadquery_mcp_a";
     bridge_temp_dir := "/tmp/cadquery_mcp_b";
     os_path_join := posix_join;
     cq_box := fun _ _ _ _ => Ok (PyObj 1);
     cq_cylinder := fun _ _ => Ok (PyObj 2);
     cq_union := fun _ _ => Ok (PyObj 3);
     cq_cut := fun _ _ => Ok (PyObj 4);
     cq_intersect := fun _ _ => Ok (PyObj 5);
     has_val_and_findSolid := fun w =>
       match w with PyObj _ => true | PyNone => false end;
     cq_findSolid := fun w => Ok w;
     exporters_export := fun _ _ ty =>
       match ty with
       | Some STEP => Ok "ISO-10303-21;"
       | None => Raise (Exception "mesh export failed")
       end;
     exec_script := fun _ st => Completes (Ok (Some (PyObj 6))) st;
     os_open_w := fun _ => Ok tt;
     os_open_r := fun _ => Ok tt;
     ctx_info := fun _ => Ok tt;
     start_cq_editor := true;
     stop_cq_editor := true;
     installation := plain_installation |}.

(** The float 1.0 = 4503599627370496 * 2^-52. *)
Definition one : spec_float := S754_finite false 4503599627370496 (-52).

(** The server after two boxes named [a] and [b] have been requested, and
    after one box named [b1]. *)
Definition two_boxes (env : Env) : State :=
  run_ops env [CreateBox one one one true (Some "a");
               CreateBox one one one true (Some "b")] (initial_state env).

Definition one_box (env : Env) : State :=
  run_ops env [CreateBox one one one true (Some "b1")] (initial_state env).

(** The result returned by a request, and the state it leaves. *)
Definition returned {R} (r : R * State) : R := r.1.
Definition state_after {R} (r : R * State) : State := r.2.

(** ** Further vocabulary *)



(** The [files] dictionary of a returned payload. *)
Definition files_of (d : payload) : PyDict.t string :=
  match PyDict.get "files" d with
  | Some (VStrDict files) => files
  | _ => []
  end.

(** The destination [export_step] derives from a given, non-empty
    [filepath]. *)
Definition step_path (filepath : string) : string :=
  if endswith ".step" (lower filepath) || endswith ".stp" (lower filepath)
  then filepath else filepath +:+ ".step".

(** Text that a text-mode file hands back as it was written, whatever the
    platform: ASCII characters, none of them a carriage return.  (Writing
    turns a line feed into the platform's line separator, reading turns
    CR LF and CR into a line feed, and other characters depend on the
    locale's encoding.) *)
Fixpoint plain_text (s : string) : bool :=
  match s with
  | EmptyString => true
  | String c s' =>
      (nat_of_ascii c <? 128)%nat && negb (Ascii.eqb c "013"%char)
      && plain_text s'
  end.


(** ** [CQEditorBridge]: the editor process and model files *)

(** What the bridge asks of the operating system.  A process is named by a
    number; [poll] is [None] while it runs; [wait] is [wait(timeout=5)].
    Within one call each process is polled at most once. *)
Record EditorHost : Type := {
  sys_exec_prefix : string;
  Popen : list string -> result nat;
  poll : nat -> option Z;
  terminate : nat -> result unit;
  wait : nat -> result unit;
  kill : nat -> result unit
}.

(** A call made on a process. *)
Inductive Signal : Type :=
| Terminate (p : nat)
| Wait (p : nat)
| Kill (p : nat).

(** A value that may offer CadQuery's [exportStep] and [exportStl]. *)
Record ModelData : Type := {
  has_exportStep : bool;
  exportStep : string -> result string;
  exportStl : string -> result string
}.

Module CQEditorBridge.

Definition potential_paths (env : Env) (host : EditorHost) : list string :=
  ["cq-editor";
   os_path_join env (os_path_join env (sys_exec_prefix host) "Scripts")
     "cq-editor.exe";
   os_path_join env (sys_exec_prefix host) "python.exe";
   "C:\Users\Senthil\miniconda3\envs\cadquery\python.exe"].

(** The command line for one candidate: the module form for a Python
    executable, the script file as argument otherwise. *)
Definition command (env : Env) (path : string) : list string :=
  if endswith "python.exe" path
  then [path; "-m"; "cq_editor"]
  else [path; script_file env].

(** The [for path in potential_paths] loop: the outcome, the handle left in
    [self.cq_editor_process], and the command lines handed to [Popen], in
    order. *)
Fixpoint try_paths (env : Env) (host : EditorHost) (paths : list string)
    (process : option nat) : bool * option nat * list (list string) :=
  match paths with
  | [] => (false, process, [])
  | path :: rest =>
      match Popen host (command env path) with
      | Ok p =>
          match poll host p with
          | None => (true, Some p, [command env path])
          | Some _ =>
              let '(started, process', log) :=
                try_paths env host rest (Some p) in
              (started, process', command env path :: log)
          end
      | Raise _ =>
          let '(started, process', log) := try_paths env host rest process in
          (started, process', command env path :: log)
      end
  end.

Definition start_cq_editor (env : Env) (host : EditorHost)
    (process : option nat) : bool * option nat * list (list string) :=
  match process with
  | Some p =>
      match poll host p with
      | None => (true, process, [])
      | Some _ => try_paths env host (potential_paths env host) process
      end
  | None => try_paths env host (potential_paths env host) process
  end.

(** The outcome and the calls made on the process; the handle itself is
    never reset. *)
Definition stop_cq_editor (host : EditorHost) (process : option nat)
    : bool * list Signal :=
  match process with
  | None => (true, [])
  | Some p =>
      match terminate host p with
      | Ok _ =>
          match wait host p with
          | Ok _ => (true, [Terminate p; Wait p])
          | Raise _ => (false, [Terminate p; Wait p; Kill p])
          end
      | Raise _ => (false, [Terminate p; Kill p])
      end
  end.

(** [object_data.exportStep(path)] and [object_data.exportStl(path)] *)
Definition export_method (r : result string) (path : string) : M unit :=
  fun st =>
    match r with
    | Ok content => (Ok tt, put_file path content st)
    | Raise e => (Raise e, st)
    end.

Definition save_model (env : Env) (object_data : ModelData) (name : string)
    : M string :=
  try_except
    (if negb (has_exportStep object_data) then mret ""
     else
       let step_file :=
         os_path_join env (bridge_temp_dir env) (name +:+ ".step") in
       export_method (exportStep object_data step_file) step_file;;
       let stl_file :=
         os_path_join env (bridge_temp_dir env) (name +:+ ".stl") in
       export_method (exportStl object_data stl_file) stl_file;;
       mret step_file)
    (fun _ => mret "").

End CQEditorBridge.

(** A candidate that [Popen] starts and that is still running after the
    grace period. *)
Definition launches (env : Env) (host : EditorHost) (path : string) (p : nat)
    : Prop :=
  Popen host (CQEditorBridge.command env path) = Ok p /\ poll host p = None.

(** A host on which the first candidate exits at once and the second one
    keeps running. *)
Definition second_candidate_host : EditorHost :=
  {| sys_exec_prefix := "/usr";
     Popen := fun args =>
       match args with
       | path :: _ => if String.eqb path "cq-editor" then Ok 1 else Ok 2
       | [] => Raise (Exception "empty command")
       end;
     poll := fun p => if Nat.eqb p 1 then Some 1%Z else None;
     terminate := fun _ => Ok tt;
     wait := fun _ => Raise (Exception "timed out after 5 seconds");
     kill := fun _ => Ok tt |}.

(** A shape whose STEP export works and whose STL export fails. *)
Definition step_only_model : ModelData :=
  {| has_exportStep := true;
     exportStep := fun _ => Ok "ISO-10303-21;";
     exportStl := fun _ => Raise (Exception "mesh export failed") |}.

(** * Proofs *)

(** ** Dictionaries *)

Lemma get_set_eq {V} (k : string) (v : V) (d : PyDict.t V) :
  PyDict.get k (PyDict.set k v d) = Some v.
Proof.
  induction d as [|[k' v'] d IH]; simpl.
  - by rewrite String.eqb_refl.
  - destruct (String.eqb k' k) eqn:E; simpl.
    + by rewrite String.eqb_refl.
    + by rewrite E.
Qed.

Lemma get_set_ne {V} (k k' : string) (v : V) (d : PyDict.t V) :
  k <> k' -> PyDict.get k' (PyDict.set k v d) = PyDict.get k' d.
Proof.
  intros Hne. induction d as [|[k0 v0] d IH]; simpl.
  - destruct (String.eqb k k') eqn:E; [|done].
    by apply String.eqb_eq in E.
  - destruct (String.eqb k0 k) eqn:E; simpl.
    + apply String.eqb_eq in E. subst k0.
      destruct (String.eqb k k') eqn:E'; [|done].
      by apply String.eqb_eq in E'.
    + by rewrite IH.
Qed.

(** ** Evaluating the tools *)

Ltac run_M :=
  unfold answered, mbind, M_bind, mret, M_ret, lift, try_except, set_object,
    set_current_object, update_workspace, update_workspace_at, export,
    write_file, open_r, get_current_workspace, read_current_workspace_id,
    exists_and_nonempty, put_file, returned, state_after in *; simpl in *.

Ltac unfold_tools :=
  unfold create_workspace, switch_workspace, get_workspace_info, create_box,
    create_cylinder, boolean_operation, boolean_dispatch,
    render_current_object, export_object, export_step, export_as_step,
    validate_step_file, execute_cq_script, store_script_result,
    launch_cq_editor, close_cq_editor, update_cq_script, update_script,
    sync_object_from_editor in *.

(** Case analysis on an innermost scrutinee of the goal. *)
Ltac break_match :=
  match goal with
  | |- context [match ?x with _ => _ end] =>
      lazymatch x with
      | context [match _ with _ => _ end] => fail
      | _ => destruct x eqn:?
      end
  end.

Lemma alter_register name obj (st : State) :
  alter (fun ws => {| objects := objects ws; current_object := Some name |})
        (current_workspace_id st)
        (alter (fun ws => {| objects := PyDict.set name obj (objects ws);
                             current_object := current_object ws |})
               (current_workspace_id st) (workspaces st))
  = alter (register name obj) (current_workspace_id st) (workspaces st).
Proof.
  by rewrite alter_alter_eq.
Qed.





(** ** Invariants of the workspace table *)









(** ** Current-object invariant *)




(** ** Payload and lookup helpers *)

Lemma error_payload_not_success m : ~ is_success (error_payload m).
Proof.
  unfold is_success. simpl. congruence.
Qed.


Lemma lookup_alter_register name obj (st : State) ws :
  workspaces st !! current_workspace_id st = Some ws ->
  alter (fun ws => {| objects := objects ws; current_object := Some name |})
        (current_workspace_id st)
        (alter (fun ws => {| objects := PyDict.set name obj (objects ws);
                             current_object := current_object ws |})
               (current_workspace_id st) (workspaces st))
    !! current_workspace_id st
  = Some (register name obj ws).
Proof.
  intros Hws. by rewrite alter_register, lookup_alter_eq, Hws.
Qed.

(** ** Boolean operations *)

(** C4.  When the target or the tool is absent from the active workspace,
    [boolean_operation] returns a NotFound error and leaves the whole state
    as it was; when it reports success, both operands were present and the
    entry registered under the returned id records the operation string and
    the two operand names, and is the current object. *)
Theorem boolean_operation_operands env st ws operation target tool name :
  workspaces st !! current_workspace_id st = Some ws ->
  (PyDict.get target (objects ws) = None
   \/ PyDict.get tool (objects ws) = None ->
   exists d,
     boolean_operation env operation target tool name st = (Ok d, st)
     /\ NotFound d /\ is_error d)
  /\ (forall d st',
        boolean_operation env operation target tool name st = (Ok d, st') ->
        is_success d ->
        registered target ws /\ registered tool ws
        /\ exists id w ws',
             PyDict.get "object_id" d = Some (VStr id)
             /\ workspaces st' !! current_workspace_id st' = Some ws'
             /\ PyDict.get id (objects ws')
                = Some (BooleanObj operation target tool w)
             /\ current_object ws' = Some id).
Proof.
  intros Hws. split.
  - intros Hmiss. unfold boolean_operation. run_M. rewrite Hws. simpl.
    unfold PyDict.mem.
    destruct (PyDict.get target (objects ws)) as [t|] eqn:Ht; simpl.
    + destruct Hmiss as [|Hu]; [done|]. rewrite Hu. simpl.
      eexists. split; [done|]. split; [|done]. exists tool. by eauto.
    + eexists. split; [done|]. split; [|done]. exists target. by eauto.
  - intros d st'.
    unfold boolean_operation, boolean_dispatch, getitem, getitem_workplane.
    run_M. rewrite Hws. simpl. unfold PyDict.mem.
    destruct (PyDict.get target (objects ws)) as [t|] eqn:Ht; simpl;
      [|intros ? Hs; simplify_eq; destruct (error_payload_not_success _ Hs)].
    destruct (PyDict.get tool (objects ws)) as [u|] eqn:Hu; simpl;
      [|intros ? Hs; simplify_eq; destruct (error_payload_not_success _ Hs)].
    repeat (break_match; simpl in * ); intros Hcall Hs; simplify_eq;
      try (destruct (error_payload_not_success _ Hs)).
    all: split; [by exists t|]; split; [by exists u|].
    all: eexists _, _, _; split; [done|]; simpl.
    all: rewrite (lookup_alter_register _ _ _ _ Hws); split; [done|].
    all: simpl; by rewrite get_set_eq.
Qed.

Lemma boolean_operation_operands_witness :
  (exists d,
     boolean_operation mock_env "union" "a" "missing" None (two_boxes mock_env)
     = (Ok d, two_boxes mock_env)
     /\ NotFound d /\ is_error d)
  /\ exists d st' ws,
       boolean_operation (kernel_env "" "") "union" "a" "b" None
         (two_boxes (kernel_env "" "")) = (Ok d, st')
       /\ is_success d
       /\ registered "a" ws /\ registered "b" ws
       /\ exists id w ws',
            PyDict.get "object_id" d = Some (VStr id)
            /\ workspaces st' !! current_workspace_id st' = Some ws'
            /\ PyDict.get id (objects ws') = Some (BooleanObj "union" "a" "b" w)
            /\ current_object ws' = Some id.
Proof.
  split.
  - refine (proj1 (boolean_operation_operands mock_env (two_boxes mock_env)
                     _ "union" "a" "missing" None _) _).
    + vm_compute. reflexivity.
    + right. vm_compute. reflexivity.
  - eexists _, _, _. split; [vm_compute; reflexivity|]. split; [reflexivity|].
    refine (proj2 (boolean_operation_operands (kernel_env "" "")
                     (two_boxes (kernel_env "" ""))
                     _ "union" "a" "b" None _) _ _ _ _).
    + vm_compute. reflexivity.
    + vm_compute. reflexivity.
    + reflexivity.
Defined.




(** ** Export pipeline *)

Lemma export_as_step_cases env w path st :
  (exists shape content,
      exporters_export env shape path (Some STEP) = Ok content
      /\ export_as_step env w path st = (Ok tt, put_file path content st))
  \/ exists e, export_as_step env w path st = (Raise e, st).
Proof.
  unfold export_as_step. run_M.
  repeat (break_match; simpl in * ); simplify_eq; eauto 10.
Qed.

Lemma readline_nonempty c : c <> "" -> readline c <> "".
Proof. destruct c as [|a c]; [done|]. simpl. intros _. by break_match. Qed.

(** What the validation block decides. *)
Lemma validate_step_file_cases env path st :
  exists r,
    validate_step_file env path st = (Ok r, st)
    /\ (r = None <->
        exists content,
          fs st !! path = Some content /\ content <> ""
          /\ os_open_r env path = Ok tt
          /\ contains "ISO-10303" (readline content) = true)
    /\ (forall d, r = Some d -> ValidationError d).
Proof.
  unfold validate_step_file. run_M.
  destruct (fs st !! path) as [content|] eqn:Hfs; simpl.
  2: { eexists. split; [done|]. split.
       - split; [done|]. by intros (? & ? & _).
       - intros d [= <-]. right. by right. }
  destruct (String.eqb content "") eqn:Hc; simpl.
  { apply String.eqb_eq in Hc. eexists. split; [done|]. split.
    - split; [done|]. intros (c & [= <-] & Hne & _). done.
    - intros d [= <-]. right. by right. }
  apply String.eqb_neq in Hc.
  destruct (os_open_r env path) as [[]|e] eqn:Hr; simpl.
  2: { eexists. split; [done|]. split.
       - split; [done|]. by intros (? & _ & _ & ? & _).
       - intros d [= <-]. right. left. by eexists. }
  rewrite Hfs. simpl.
  pose proof (readline_nonempty _ Hc) as Hrl.
  apply String.eqb_neq in Hrl. rewrite Hrl. simpl.
  destruct (contains "ISO-10303" (readline content)) eqn:Hsig; simpl.
  - eexists. split; [done|]. split; [|done].
    split; [|done]. intros _. exists content. done.
  - eexists. split; [done|]. split.
    + split; [done|]. intros (c & [= <-] & _ & _ & ?). congruence.
    + intros d [= <-]. by left.
Qed.

Lemma export_object_step_family env st ws name obj format validate :
  CADQUERY_AVAILABLE env = true ->
  workspaces st !! current_workspace_id st = Some ws ->
  PyDict.get name (objects ws) = Some obj ->
  lower format = "step" \/ lower format = "stp" ->
  let path := os_path_join env (temp_dir env) (name +:+ "." +:+ lower format) in
  export_object env name format validate st =
    match export_as_step env (get_workplane obj) path st with
    | (Ok _, st1) =>
        if validate then
          match validate_step_file env path st1 with
          | (Ok (Some d), st2) => (Ok d, st2)
          | (Ok None, st2) => (Ok (export_success env name (lower format)), st2)
          | (Raise e, st2) =>
              (Ok (error_payload ("Export failed: " +:+ str_exn e)), st2)
          end
        else (Ok (export_success env name (lower format)), st1)
    | (Raise e, st1) =>
        (Ok (error_payload ("Export failed: " +:+ str_exn e)), st1)
    end.
Proof.
  intros Hcq Hws Hobj Hfmt path. subst path.
  unfold export_object, getitem. run_M. rewrite Hws. simpl.
  unfold PyDict.mem. rewrite Hobj, Hcq. simpl.
  destruct Hfmt as [-> | ->]; simpl.
  all: destruct (export_as_step env (get_workplane obj) _ st) as [[[]|e] st1];
    simpl; [|done].
  all: destruct validate; simpl; [|done].
  all: destruct (validate_step_file env _ st1) as [[[d|]|e] st2]; done.
Qed.

Lemma ValidationError_is_error d : ValidationError d -> is_error d.
Proof. by intros [-> | [[m ->] | ->]]. Qed.

Lemma success_not_error d : is_success d -> ~ is_error d.
Proof. unfold is_success, is_error. congruence. Qed.

Lemma export_failed_not_unsupported m :
  ~ UnsupportedFormat (error_payload ("Export failed: " +:+ m)).
Proof. intros [f Hf]. by injection Hf. Qed.

Lemma ValidationError_not_unsupported d :
  ValidationError d -> ~ UnsupportedFormat d.
Proof.
  intros [-> | [[m ->] | ->]] [f Hf]; by injection Hf.
Qed.

Lemma success_not_unsupported d : is_success d -> ~ UnsupportedFormat d.
Proof.
  intros Hs [f ->]. by apply error_payload_not_success in Hs.
Qed.

(** In mock mode the format string is never checked: ["xyz"] is accepted
    for an existing object and a file with that extension is written. *)
Lemma export_object_xyz_accepted_in_mock_mode :
  exists ws d st',
    workspaces (one_box mock_env) !! current_workspace_id (one_box mock_env)
      = Some ws
    /\ registered "b1" ws
    /\ lower "xyz" <> "stl" /\ lower "xyz" <> "step" /\ lower "xyz" <> "stp"
    /\ export_object mock_env "b1" "xyz" true (one_box mock_env) = (Ok d, st')
    /\ is_success d /\ ~ UnsupportedFormat d
    /\ fs st' !! "/tmp/cadquery_mcp_a/b1.xyz"
       = Some "Mock XYZ file content for b1".
Proof.
  eexists _, _, _.
  split; [vm_compute; reflexivity|].
  split; [by eexists|].
  do 3 (split; [done|]).
  split; [vm_compute; reflexivity|].
  split; [reflexivity|].
  split; [by apply success_not_unsupported|].
  vm_compute. reflexivity.
Qed.

(** C5 (amended).  For an existing object the outcome of [export_object]
    depends on the format only through its lower-case form.  With the
    kernel available, a format whose lower-case form is none of stl, step
    and stp is refused with an UnsupportedFormat error and the state is
    left as it was, while stl, step and stp are never refused with that
    error.  In mock mode the format is not checked: whatever the call
    returns is a success. *)
Theorem export_object_formats env st ws name obj format validate :
  workspaces st !! current_workspace_id st = Some ws ->
  PyDict.get name (objects ws) = Some obj ->
  (forall format',
      lower format' = lower format ->
      export_object env name format' validate st
      = export_object env name format validate st)
  /\ (CADQUERY_AVAILABLE env = true ->
      (lower format <> "stl" -> lower format <> "step" ->
       lower format <> "stp" ->
       exists d,
         export_object env name format validate st = (Ok d, st)
         /\ UnsupportedFormat d /\ is_error d)
      /\ (lower format = "stl" \/ lower format = "step"
          \/ lower format = "stp" ->
          exists d st',
            export_object env name format validate st = (Ok d, st')
            /\ ~ UnsupportedFormat d))
  /\ (CADQUERY_AVAILABLE env = false ->
      forall d st',
        export_object env name format validate st = (Ok d, st') ->
        is_success d).
Proof.
  intros Hws Hobj. split; [|split].
  - intros format' Heq. unfold export_object. by rewrite Heq.
  - intros Hcq. split.
    + intros H1 H2 H3. apply String.eqb_neq in H1, H2, H3.
      unfold export_object, getitem. run_M. rewrite Hws. simpl.
      unfold PyDict.mem. rewrite Hobj, Hcq. simpl.
      rewrite H1, H2, H3. simpl.
      eexists. split; [done|]. split; [by eexists|done].
    + intros [Hstl | Hstep].
      * unfold export_object, getitem. run_M. rewrite Hws. simpl.
        unfold PyDict.mem. rewrite Hobj, Hcq, Hstl. simpl.
        destruct (exporters_export env _ _ _) as [content|e]; simpl.
        -- eexists _, _. split; [done|]. by apply success_not_unsupported.
        -- eexists _, _. split; [done|]. apply export_failed_not_unsupported.
      * rewrite (export_object_step_family _ _ _ _ _ _ _ Hcq Hws Hobj Hstep).
        destruct (export_as_step_cases env (get_workplane obj)
                    (os_path_join env (temp_dir env)
                       (name +:+ "." +:+ lower format)) st)
          as [(shape & content & _ & ->) | [e ->]].
        2: { eexists _, _. split; [done|]. apply export_failed_not_unsupported. }
        destruct validate.
        2: { eexists _, _. split; [done|]. by apply success_not_unsupported. }
        destruct (validate_step_file_cases env
                    (os_path_join env (temp_dir env)
                       (name +:+ "." +:+ lower format))
                    (put_file (os_path_join env (temp_dir env)
                                 (name +:+ "." +:+ lower format)) content st))
          as (r & -> & _ & Herr).
        destruct r as [d|].
        -- eexists _, _. split; [done|].
           by apply ValidationError_not_unsupported, Herr.
        -- eexists _, _. split; [done|]. by apply success_not_unsupported.
  - intros Hcq d st'. unfold export_object. run_M. rewrite Hws. simpl.
    unfold PyDict.mem. rewrite Hobj, Hcq. simpl.
    destruct (os_open_w env _) as [[]|e]; simpl; by intros [= <- <-].
Qed.

Lemma export_object_formats_witness :
  (exists d,
     export_object (kernel_env "" "") "b1" "XyZ" true
       (one_box (kernel_env "" "")) = (Ok d, one_box (kernel_env "" ""))
     /\ UnsupportedFormat d /\ is_error d)
  /\ exists d st',
       export_object (kernel_env "" "") "b1" "StP" false
         (one_box (kernel_env "" "")) = (Ok d, st')
       /\ ~ UnsupportedFormat d.
Proof.
  destruct (export_object_formats (kernel_env "" "")
              (one_box (kernel_env "" ""))
              {| objects := [("b1", BoxObj one one one true (Some (PyObj 1)))];
                 current_object := Some "b1" |}
              "b1" (BoxObj one one one true (Some (PyObj 1))) "XyZ" true)
    as (_ & Hk & _); [vm_compute; reflexivity | reflexivity |].
  destruct (export_object_formats (kernel_env "" "")
              (one_box (kernel_env "" ""))
              {| objects := [("b1", BoxObj one one one true (Some (PyObj 1)))];
                 current_object := Some "b1" |}
              "b1" (BoxObj one one one true (Some (PyObj 1))) "StP" false)
    as (_ & Hk' & _); [vm_compute; reflexivity | reflexivity |].
  split.
  - by apply (proj1 (Hk eq_refl)).
  - apply (proj2 (Hk' eq_refl)). right. by right.
Defined.

(** [export_object] with the step format succeeds on a host whose mesh
    exporter cannot write anything: the only artifact, and the only path
    reported, is the STEP file. *)
Lemma export_object_step_emits_no_stl :
  exists d st',
    export_object step_only_env "b1" "step" true (one_box step_only_env)
    = (Ok d, st')
    /\ is_success d
    /\ PyDict.get "files" d
       = Some (VStrDict [("step", "/tmp/cadquery_mcp_a/b1.step")])
    /\ fs st' !! "/tmp/cadquery_mcp_a/b1.step" = Some "ISO-10303-21;"
    /\ fs st' !! "/tmp/cadquery_mcp_a/b1.stl" = None.
Proof.
  eexists _, _. split; [vm_compute; reflexivity|].
  split; [reflexivity|]. split; [reflexivity|].
  split; vm_compute; reflexivity.
Qed.

(** C6 (amended).  Every successful [export_object] call with a
    STEP-family format writes exactly one artifact, the STEP file
    [{name}.{format}] in the scratch directory, reports exactly that path
    under the format's key, and leaves every other file and the workspace
    table untouched; no companion STL is emitted by this tool. *)
Theorem export_object_step_artifacts env st ws name format validate d st' :
  workspaces st !! current_workspace_id st = Some ws ->
  lower format = "step" \/ lower format = "stp" ->
  export_object env name format validate st = (Ok d, st') ->
  is_success d ->
  let path := os_path_join env (temp_dir env) (name +:+ "." +:+ lower format) in
  PyDict.get "files" d = Some (VStrDict [(lower format, path)])
  /\ workspaces st' = workspaces st
  /\ (exists content, fs st' = <[path := content]> (fs st))
  /\ forall other, other <> path -> fs st' !! other = fs st !! other.
Proof.
  intros Hws Hfmt Hcall Hs path.
  assert (PyDict.get "files" d = Some (VStrDict [(lower format, path)])
          /\ workspaces st' = workspaces st
          /\ exists content, fs st' = <[path := content]> (fs st))
    as (Hfiles & Hw & content & Hfs).
  2: { repeat split; try done; [by exists content|].
       intros other Hne. by rewrite Hfs, lookup_insert_ne. }
  destruct (PyDict.get name (objects ws)) as [obj|] eqn:Hobj.
  2: { revert Hcall. unfold export_object. run_M. rewrite Hws. simpl.
       unfold PyDict.mem. rewrite Hobj. simpl. intros [= <- <-].
       destruct (error_payload_not_success _ Hs). }
  destruct (CADQUERY_AVAILABLE env) eqn:Hcq.
  - rewrite (export_object_step_family _ _ _ _ _ _ _ Hcq Hws Hobj Hfmt)
      in Hcall. fold path in Hcall.
    destruct (export_as_step_cases env (get_workplane obj) path st)
      as [(shape & content & _ & Hexp) | [e Hexp]]; rewrite Hexp in Hcall.
    2: { simplify_eq. destruct (error_payload_not_success _ Hs). }
    destruct validate.
    + destruct (validate_step_file_cases env path (put_file path content st))
        as (r & Hval & _ & Herr). rewrite Hval in Hcall.
      destruct r as [e|]; simplify_eq.
      * destruct (success_not_error _ Hs).
        by apply ValidationError_is_error, Herr.
      * split; [done|]. split; [done|]. by exists content.
    + simplify_eq. split; [done|]. split; [done|]. by exists content.
  - revert Hcall. unfold export_object. run_M. rewrite Hws. simpl.
    unfold PyDict.mem. rewrite Hobj, Hcq. simpl.
    destruct (os_open_w env _) as [[]|e]; simpl; intros [= <- <-]; simpl.
    split; [done|]. split; [done|]. by eexists.
Qed.

Lemma export_object_step_artifacts_witness :
  exists d st',
    export_object (kernel_env "ISO-10303-21;" "solid") "b1" "step" true
      (one_box (kernel_env "ISO-10303-21;" "solid")) = (Ok d, st')
    /\ PyDict.get "files" d
       = Some (VStrDict [("step", "/tmp/cadquery_mcp_a/b1.step")])
    /\ forall other,
         other <> "/tmp/cadquery_mcp_a/b1.step" ->
         fs st' !! other
         = fs (one_box (kernel_env "ISO-10303-21;" "solid")) !! other.
Proof.
  edestruct (export_object_step_artifacts
               (kernel_env "ISO-10303-21;" "solid")
               (one_box (kernel_env "ISO-10303-21;" "solid")))
    with (name := "b1") (format := "step") (validate := true)
    as (Hfiles & _ & _ & Hother).
  - vm_compute. reflexivity.
  - by left.
  - vm_compute. reflexivity.
  - reflexivity.
  - eexists _, _. split; [vm_compute; reflexivity|].
    split; [exact Hfiles | exact Hother].
Defined.

(** Validation looks for the signature anywhere in the first line, and
    only when the kernel is available: a STEP artifact that starts with a
    blank passes, and so does the mock artifact, which has no signature. *)
Lemma export_object_step_validation_is_not_prefix :
  (exists d st',
     export_object (kernel_env " ISO-10303-21;" "solid") "b1" "step" true
       (one_box (kernel_env " ISO-10303-21;" "solid")) = (Ok d, st')
     /\ is_success d /\ ~ ValidationError d
     /\ fs st' !! "/tmp/cadquery_mcp_a/b1.step" = Some " ISO-10303-21;"
     /\ String.prefix "ISO-10303" " ISO-10303-21;" = false)
  /\ exists d st',
       export_object mock_env "b1" "step" true (one_box mock_env) = (Ok d, st')
       /\ is_success d /\ ~ ValidationError d
       /\ fs st' !! "/tmp/cadquery_mcp_a/b1.step"
          = Some "Mock STEP file content for b1"
       /\ contains "ISO-10303" "Mock STEP file content for b1" = false.
Proof.
  split; eexists _, _.
  all: split; [vm_compute; reflexivity|].
  all: split; [reflexivity|].
  all: split;
    [intros Hv; by apply ValidationError_is_error in Hv|].
  all: split; vm_compute; reflexivity.
Qed.

(** C7 (amended).  With the kernel available, for an existing object and a
    STEP-family format with [validate] set, once the STEP export itself has
    returned: the call fails with a ValidationError exactly when the
    artifact is missing or empty, cannot be read back, or its first line
    does not contain the signature [ISO-10303]; otherwise it succeeds.  A
    successfully validated artifact is non-empty and its first line
    contains the signature; an artifact whose first line lacks it fails
    validation. *)
Theorem export_object_step_validation env st ws name obj format :
  CADQUERY_AVAILABLE env = true ->
  workspaces st !! current_workspace_id st = Some ws ->
  PyDict.get name (objects ws) = Some obj ->
  lower format = "step" \/ lower format = "stp" ->
  let path := os_path_join env (temp_dir env) (name +:+ "." +:+ lower format) in
  forall st1,
    export_as_step env (get_workplane obj) path st = (Ok tt, st1) ->
    exists d,
      export_object env name format true st = (Ok d, st1)
      /\ (ValidationError d <->
          fs st1 !! path = None \/ fs st1 !! path = Some ""
          \/ (exists e, os_open_r env path = Raise e)
          \/ exists content,
               fs st1 !! path = Some content
               /\ contains "ISO-10303" (readline content) = false)
      /\ (is_success d <->
          exists content,
            fs st1 !! path = Some content /\ content <> ""
            /\ os_open_r env path = Ok tt
            /\ contains "ISO-10303" (readline content) = true)
      /\ (ValidationError d \/ is_success d).
Proof.
  intros Hcq Hws Hobj Hfmt path st1 Hexp.
  rewrite (export_object_step_family _ _ _ _ _ _ _ Hcq Hws Hobj Hfmt).
  fold path. rewrite Hexp.
  destruct (validate_step_file_cases env path st1) as (r & -> & Hnone & Herr).
  destruct r as [d|].
  - exists d. split; [done|].
    assert (Hv : ValidationError d) by by apply Herr.
    assert (Hns : ~ is_success d).
    { intros Hs. by apply (success_not_error _ Hs), ValidationError_is_error. }
    split; [|split; [|by left]].
    + split; [intros _|done].
      destruct (fs st1 !! path) as [content|] eqn:Hfs; [|by left].
      destruct (decide (content = "")) as [->|Hne]; [right; by left|].
      destruct (os_open_r env path) as [[]|e] eqn:Hr; [|by eauto 6].
      destruct (contains "ISO-10303" (readline content)) eqn:Hsig;
        [|by eauto 6].
      assert (Some d = None) as [=]. apply Hnone. by exists content.
    + split; [done|]. intros Hex. by apply Hnone in Hex.
  - exists (export_success env name (lower format)). split; [done|].
    destruct Hnone as [Hnone _].
    destruct (Hnone eq_refl) as (content & Hfs & Hne & Hr & Hsig).
    split; [|split; [|by right]].
    + split.
      * intros Hv. by apply ValidationError_is_error in Hv.
      * intros [H | [H | [[e H] | (c & H & Hc)]]]; congruence.
    + split; [intros _|done]. by exists content.
Qed.

Lemma export_object_step_validation_witness :
  exists d st1,
    export_object (kernel_env "ISO-10303-21;" "solid") "b1" "STEP" true
      (one_box (kernel_env "ISO-10303-21;" "solid")) = (Ok d, st1)
    /\ is_success d.
Proof.
  edestruct (export_object_step_validation
               (kernel_env "ISO-10303-21;" "solid")
               (one_box (kernel_env "ISO-10303-21;" "solid")))
    with (name := "b1") (format := "STEP")
    as (d & Hcall & _ & Hs & _).
  - reflexivity.
  - vm_compute. reflexivity.
  - vm_compute. reflexivity.
  - by left.
  - vm_compute. reflexivity.
  - exists d. eexists. split; [exact Hcall|]. apply Hs.
    exists "ISO-10303-21;". split; [vm_compute; reflexivity|]. done.
Defined.

(** ** Export with an explicit path *)

Lemma append_nonempty a b : a <> "" -> a +:+ b <> "".
Proof. by destruct a. Qed.

(** C9.  For an existing object and a non-empty explicit [filepath],
    [export_step] writes the STEP artifact at [filepath], with [.step]
    appended unless the path already ends, case-insensitively, in [.step]
    or [.stp]; a successful call has also written the STL preview at
    [{name}.stl] in the scratch directory, whatever the explicit path, and
    reports both paths.  No validation follows the export: as soon as the
    two exports (the two writes in mock mode) return, the call succeeds,
    whatever was written. *)
Theorem export_step_explicit_path env st ws name obj filepath :
  workspaces st !! current_workspace_id st = Some ws ->
  PyDict.get name (objects ws) = Some obj ->
  filepath <> "" ->
  let output_path :=
    if endswith ".step" (lower filepath) || endswith ".stp" (lower filepath)
    then filepath else filepath +:+ ".step" in
  let stl_path := os_path_join env (temp_dir env) (name +:+ ".stl") in
  (forall d st',
      export_step env name (Some filepath) st = (Ok d, st') ->
      is_success d ->
      d = export_step_success env name output_path
      /\ is_Some (fs st' !! output_path)
      /\ is_Some (fs st' !! stl_path)
      /\ workspaces st' = workspaces st)
  /\ (CADQUERY_AVAILABLE env = true ->
      forall st1 st2,
        export_as_step env (get_workplane obj) output_path st = (Ok tt, st1) ->
        export env (get_workplane obj) stl_path None st1 = (Ok tt, st2) ->
        export_step env name (Some filepath) st
        = (Ok (export_step_success env name output_path), st2))
  /\ (CADQUERY_AVAILABLE env = false ->
      os_open_w env output_path = Ok tt ->
      os_open_w env stl_path = Ok tt ->
      export_step env name (Some filepath) st
      = (Ok (export_step_success env name output_path),
         put_file stl_path ("Mock STL file content for " +:+ name)
           (put_file output_path ("Mock STEP file content for " +:+ name) st))).
Proof.
  intros Hws Hobj Hne output_path stl_path.
  assert (Hout : String.eqb output_path "" = false).
  { apply String.eqb_neq. subst output_path.
    destruct (_ || _); [done|]. by apply append_nonempty. }
  apply String.eqb_neq in Hne.
  split; [|split].
  - intros d st'. unfold export_step, getitem. run_M. rewrite Hws. simpl.
    unfold PyDict.mem. rewrite Hobj, Hne. simpl.
    destruct (CADQUERY_AVAILABLE env) eqn:Hcq.
    + destruct (export_as_step_cases env (get_workplane obj)
                  (if negb (endswith ".step" (lower filepath)
                            || endswith ".stp" (lower filepath))
                   then filepath +:+ ".step" else filepath) st)
        as [(shape & content & _ & ->) | [e ->]]; simpl.
      2: { intros [= <- <-] Hs. destruct (error_payload_not_success _ Hs). }
      destruct (exporters_export env (get_workplane obj) _ None)
        as [stl|e]; simpl.
      2: { intros [= <- <-] Hs. destruct (error_payload_not_success _ Hs). }
      intros [= <- <-] _. simpl. subst output_path stl_path.
      destruct (_ || _); simpl; (split; [done|]);
        (split; [|split; [|done]]); rewrite ?lookup_insert_eq; eauto;
        rewrite lookup_insert; case_decide; rewrite ?lookup_insert_eq;
        eauto.
    + fold stl_path. subst output_path.
      destruct (endswith ".step" (lower filepath)
                || endswith ".stp" (lower filepath)); simpl in *;
        rewrite Hout; simpl.
      all: repeat (break_match; simpl in * ); intros Hcall Hs; simplify_eq.
      all: split; [done|]; (split; [|split; [|done]]); simpl.
      all: rewrite ?lookup_insert_eq; eauto.
      all: rewrite lookup_insert; case_decide; rewrite ?lookup_insert_eq;
        eauto.
  - intros Hcq st1 st2 H1 H2.
    unfold export_step, getitem. run_M. rewrite Hws. simpl.
    unfold PyDict.mem. rewrite Hobj, Hne, Hcq. simpl.
    subst output_path stl_path.
    destruct (endswith ".step" (lower filepath)
              || endswith ".stp" (lower filepath)); simpl in *.
    all: rewrite H1; simpl; by rewrite H2.
  - intros Hcq Hw1 Hw2.
    unfold export_step. run_M. rewrite Hws. simpl.
    unfold PyDict.mem. rewrite Hobj, Hne, Hcq. simpl.
    subst output_path stl_path.
    destruct (endswith ".step" (lower filepath)
              || endswith ".stp" (lower filepath)); simpl in *.
    all: rewrite Hout; simpl; rewrite Hw1; simpl; by rewrite Hw2.
Qed.

Lemma export_step_explicit_path_witness :
  export_step (kernel_env "" "solid") "b1" (Some "/out/part")
    (one_box (kernel_env "" "solid"))
  = (Ok (export_step_success (kernel_env "" "solid") "b1" "/out/part.step"),
     put_file "/tmp/cadquery_mcp_a/b1.stl" "solid"
       (put_file "/out/part.step" "" (one_box (kernel_env "" "solid"))))
  /\ export_step mock_env "b1" (Some "/out/PART.STP") (one_box mock_env)
     = (Ok (export_step_success mock_env "b1" "/out/PART.STP"),
        put_file "/tmp/cadquery_mcp_a/b1.stl" "Mock STL file content for b1"
          (put_file "/out/PART.STP" "Mock STEP file content for b1"
             (one_box mock_env))).
Proof.
  split.
  - edestruct (export_step_explicit_path (kernel_env "" "solid")
                 (one_box (kernel_env "" "solid")))
      with (name := "b1") (filepath := "/out/part") as (_ & Hk & _).
    + vm_compute. reflexivity.
    + vm_compute. reflexivity.
    + done.
    + eapply (Hk eq_refl); reflexivity.
  - edestruct (export_step_explicit_path mock_env (one_box mock_env))
      with (name := "b1") (filepath := "/out/PART.STP") as (_ & _ & Hm).
    + vm_compute. reflexivity.
    + vm_compute. reflexivity.
    + done.
    + apply (Hm eq_refl); reflexivity.
Defined.

(** ** Default names *)

(** What a returned [create_box] has done. *)
Lemma create_box_returned env w l h c name st ws d st' :
  workspaces st !! current_workspace_id st = Some ws ->
  create_box env w l h c name st = (Ok d, st') ->
  let id := match name with
            | None => "box_" +:+ pretty (PyDict.len (objects ws))
            | Some n => n
            end in
  PyDict.get "object_id" d = Some (VStr id)
  /\ current_workspace_id st' = current_workspace_id st
  /\ exists wp,
       workspaces st' !! current_workspace_id st
       = Some (register id (BoxObj w l h c wp) ws).
Proof.
  intros Hws. unfold create_box. run_M. rewrite Hws. simpl.
  repeat (break_match; simpl in * ); intros; simplify_eq.
  all: simpl; split; [done|]; split; [done|]; eexists.
  all: by rewrite (lookup_alter_register _ _ _ _ Hws).
Qed.




(** ** Editor synchronisation *)

(** Syncing under the name of an object that is already registered reports
    that name; exporting it afterwards succeeds. *)
Lemma sync_of_registered_name_then_export_succeeds :
  exists ws d d',
    workspaces (one_box mock_env) !! current_workspace_id (one_box mock_env)
      = Some ws
    /\ sync_object_from_editor mock_env (Some "b1") (one_box mock_env)
       = (Ok d, one_box mock_env)
    /\ is_success d
    /\ PyDict.get "object_id" d = Some (VStr "b1")
    /\ PyDict.len (objects ws) = 1
    /\ returned (export_object mock_env "b1" "stl" true (one_box mock_env))
       = Ok d'
    /\ is_success d' /\ ~ NotFound d'.
Proof.
  eexists _, _, _.
  split; [vm_compute; reflexivity|].
  split; [vm_compute; reflexivity|].
  split; [reflexivity|]. split; [reflexivity|]. split; [reflexivity|].
  split; [vm_compute; reflexivity|].
  split; [reflexivity|].
  intros [n [H | [H | [H | H]]]]; by injection H.
Qed.

(** C10 (amended).  Every call to [sync_object_from_editor], with or
    without a name, leaves the whole state as it was: nothing is
    registered, the object count and mapping and the current object are
    untouched.  When the script file can be read the response is a success
    carrying the script and an object id, the given name or
    [synced_{count}]; and when no object of that id was registered before
    the call, exporting that id afterwards fails with NotFound. *)
Theorem sync_object_from_editor_frame env st name :
  state_after (sync_object_from_editor env name st) = st
  /\ forall ws,
       workspaces st !! current_workspace_id st = Some ws ->
       let id := match name with
                 | None => "synced_" +:+ pretty (PyDict.len (objects ws))
                 | Some n => n
                 end in
       (forall script,
           os_open_r env (script_file env) = Ok tt ->
           fs st !! script_file env = Some script ->
           sync_object_from_editor env name st
           = (Ok [("status", VStr "success");
                  ("message", VStr ("Synced object from CQ-Editor: " +:+ id));
                  ("object_id", VStr id);
                  ("script", VStr script)], st))
       /\ (forall d st',
             sync_object_from_editor env name st = (Ok d, st') ->
             is_success d ->
             PyDict.get "object_id" d = Some (VStr id))
       /\ (PyDict.get id (objects ws) = None ->
           (forall format validate,
               exists d,
                 export_object env id format validate st = (Ok d, st)
                 /\ NotFound d /\ is_error d)
           /\ (forall filepath,
                 exists d,
                   export_step env id filepath st = (Ok d, st)
                   /\ NotFound d /\ is_error d)).
Proof.
  split.
  - unfold sync_object_from_editor. run_M.
    repeat (break_match; simpl in * ); by simplify_eq.
  - intros ws Hws id. split; [|split].
    + intros script Hr Hfs. unfold sync_object_from_editor. run_M.
      by rewrite Hws, Hr, Hfs.
    + intros d st'. unfold sync_object_from_editor. run_M. rewrite Hws. simpl.
      repeat (break_match; simpl in * ); intros Hcall Hs; simplify_eq;
        try done; destruct (error_payload_not_success _ Hs).
    + intros Hfresh. split.
      * intros format validate. unfold export_object. run_M. rewrite Hws.
        simpl. unfold PyDict.mem. rewrite Hfresh. simpl.
        eexists. split; [done|]. split; [|done]. exists id. by left.
      * intros filepath. unfold export_step. run_M. rewrite Hws.
        simpl. unfold PyDict.mem. rewrite Hfresh. simpl.
        eexists. split; [done|]. split; [|done]. exists id. by left.
Qed.

Lemma sync_object_from_editor_frame_witness :
  (exists d,
     sync_object_from_editor mock_env None (one_box mock_env)
     = (Ok d, one_box mock_env)
     /\ PyDict.get "object_id" d = Some (VStr "synced_1"))
  /\ exists d,
       export_object mock_env "synced_1" "stl" true (one_box mock_env)
       = (Ok d, one_box mock_env)
       /\ NotFound d /\ is_error d.
Proof.
  destruct (sync_object_from_editor_frame mock_env (one_box mock_env) None)
    as (_ & H).
  edestruct H as (Hsync & _ & Hexport); [vm_compute; reflexivity|].
  split.
  - eexists. split.
    + apply Hsync; [reflexivity | vm_compute; reflexivity].
    + reflexivity.
  - by apply Hexport.
Defined.

(** ** Tagged results *)










(** * Further properties of the tools *)

(** ** More on dictionaries and strings *)



Lemma keys_set {V} (k : string) (v : V) (d : PyDict.t V) :
  PyDict.keys (PyDict.set k v d)
  = if PyDict.mem k d then PyDict.keys d else (PyDict.keys d ++ [k])%list.
Proof.
  unfold PyDict.keys, PyDict.mem.
  induction d as [|[k' v'] d IH]; csimpl; [done|].
  destruct (String.eqb k' k) eqn:E; csimpl.
  - apply String.eqb_eq in E. by subst.
  - rewrite IH. by destruct (PyDict.get k d).
Qed.

Lemma len_keys {V} (d : PyDict.t V) : PyDict.len d = length (PyDict.keys d).
Proof.
  unfold PyDict.len, PyDict.keys. by rewrite length_fmap.
Qed.

Lemma len_set {V} (k : string) (v : V) (d : PyDict.t V) :
  PyDict.len (PyDict.set k v d)
  = if PyDict.mem k d then PyDict.len d else S (PyDict.len d).
Proof.
  rewrite !len_keys, keys_set. destruct (PyDict.mem k d); [done|].
  rewrite length_app. simpl. lia.
Qed.


Lemma lower_app a b : lower (a +:+ b) = lower a +:+ lower b.
Proof.
  induction a as [|c a IH]; simpl; [done|]. by rewrite IH.
Qed.

Lemma substring_all s : substring 0 (String.length s) s = s.
Proof.
  induction s as [|c s IH]; simpl; [done|]. by rewrite IH.
Qed.

Lemma substring_app_suffix s suf :
  substring (String.length s) (String.length suf) (s +:+ suf) = suf.
Proof.
  induction s as [|c s IH]; simpl; [apply substring_all|done].
Qed.

Lemma length_app_string a b :
  String.length (a +:+ b) = String.length a + String.length b.
Proof.
  induction a as [|c a IH]; simpl; [done|]. by rewrite IH.
Qed.

Lemma endswith_app s suf : endswith suf (s +:+ suf) = true.
Proof.
  unfold endswith. rewrite length_app_string.
  replace (String.length s + String.length suf - String.length suf)
    with (String.length s) by lia.
  rewrite substring_app_suffix, String.eqb_refl.
  apply andb_true_iff. split; [|done]. apply Nat.leb_le. lia.
Qed.

Lemma step_path_suffix p :
  endswith ".step" (lower (step_path p))
  || endswith ".stp" (lower (step_path p)) = true.
Proof.
  unfold step_path.
  destruct (endswith ".step" (lower p) || endswith ".stp" (lower p)) eqn:E;
    [done|].
  rewrite lower_app. simpl lower at 2.
  change (String (ascii_lower ".") _) with ".step".
  by rewrite endswith_app.
Qed.

(** ** Workspace registry *)

(** X1.  [create_workspace] on an unregistered name registers an empty
    workspace, makes it active and touches nothing else, so that
    [get_workspace_info] then reports no object and no current object; on
    a registered name it returns an error and changes nothing, the active
    workspace included. *)
Theorem create_workspace_outcomes env st name :
  (workspaces st !! name = None ->
   exists d st',
     create_workspace name st = (Ok d, st')
     /\ is_success d
     /\ PyDict.get "workspace_id" d = Some (VStr name)
     /\ current_workspace_id st' = name
     /\ (forall id, id <> name -> workspaces st' !! id = workspaces st !! id)
     /\ fs st' = fs st
     /\ get_workspace_info env st'
        = (Ok [("workspace_id", VStr name); ("object_count", VInt 0);
               ("objects", VStrList []); ("current_object", VNone);
               ("temp_directory", VStr (temp_dir env))], st'))
  /\ (is_Some (workspaces st !! name) ->
      exists d,
        create_workspace name st = (Ok d, st)
        /\ is_error d
        /\ d = error_payload ("Workspace '" +:+ name +:+ "' already exists")).
Proof.
  split.
  - intros Hfresh. unfold create_workspace. rewrite Hfresh.
    eexists _, _. split; [done|]. split; [done|]. split; [done|].
    split; [done|]. simpl.
    split; [intros id Hne; by rewrite lookup_insert_ne|]. split; [done|].
    unfold get_workspace_info. run_M. by rewrite lookup_insert_eq.
  - intros [ws Hws]. unfold create_workspace. rewrite Hws. by eexists.
Qed.

Lemma create_workspace_outcomes_witness :
  (exists d st',
     create_workspace "draft" (one_box mock_env) = (Ok d, st')
     /\ is_success d /\ current_workspace_id st' = "draft")
  /\ exists d,
       create_workspace "default" (one_box mock_env)
       = (Ok d, one_box mock_env) /\ is_error d.
Proof.
  destruct (create_workspace_outcomes mock_env (one_box mock_env) "draft")
    as [Hfresh _].
  destruct (create_workspace_outcomes mock_env (one_box mock_env) "default")
    as [_ Htaken].
  split.
  - destruct Hfresh as (d & st' & Hc & Hs & _ & Hcur & _);
      [vm_compute; reflexivity|].
    by exists d, st'.
  - destruct Htaken as (d & Hc & He & _); [eexists; vm_compute; reflexivity|].
    by exists d.
Defined.

(** X2.  [switch_workspace] to an unregistered name returns a NotFound
    error and changes nothing; to a registered name it changes the active
    id only, and switching back restores the state exactly. *)
Theorem switch_workspace_outcomes st name :
  (workspaces st !! name = None ->
   exists d, switch_workspace name st = (Ok d, st) /\ NotFound d /\ is_error d)
  /\ (is_Some (workspaces st !! name) ->
      exists d st',
        switch_workspace name st = (Ok d, st')
        /\ is_success d
        /\ current_workspace_id st' = name
        /\ workspaces st' = workspaces st /\ fs st' = fs st
        /\ (is_Some (workspaces st !! current_workspace_id st) ->
            state_after (switch_workspace (current_workspace_id st) st') = st)).
Proof.
  split.
  - intros Hn. unfold switch_workspace. rewrite Hn. eexists. split; [done|].
    split; [|done]. exists name. by do 3 right.
  - intros [ws Hws]. unfold switch_workspace at 1. rewrite Hws.
    eexists _, _. split; [done|]. split; [done|]. split; [done|].
    split; [done|]. split; [done|].
    intros [ws0 H0]. unfold switch_workspace, state_after. simpl.
    rewrite H0. simpl. by destruct st.
Qed.

Lemma switch_workspace_outcomes_witness :
  exists d,
    switch_workspace "nowhere" (one_box mock_env) = (Ok d, one_box mock_env)
    /\ NotFound d /\ is_error d.
Proof.
  apply (proj1 (switch_workspace_outcomes (one_box mock_env) "nowhere")).
  vm_compute. reflexivity.
Defined.











(** ** Reachable states *)








(** ** Creation *)

(** X9.  With the kernel available, a shape the kernel refuses to build
    leaves the state untouched and the exception leaves the tool; a
    failure of the preview export, however, leaves the tool as an
    exception after the new object has been registered and made current,
    with no file written. *)
Theorem kernel_creation_failures env st ws :
  CADQUERY_AVAILABLE env = true ->
  workspaces st !! current_workspace_id st = Some ws ->
  (forall w l h c name e,
      cq_box env w l h c = Raise e ->
      create_box env w l h c name st = (Raise e, st))
  /\ (forall r h c name e,
        cq_cylinder env h r = Raise e ->
        create_cylinder env r h c name st = (Raise e, st))
  /\ (forall w l h c name box e,
        cq_box env w l h c = Ok box ->
        exporters_export env box
          (os_path_join env (temp_dir env) (name +:+ ".stl")) None = Raise e ->
        exists st',
          create_box env w l h c (Some name) st = (Raise e, st')
          /\ workspaces st' !! current_workspace_id st'
             = Some (register name (BoxObj w l h c (Some box)) ws)
          /\ fs st' = fs st)
  /\ (forall r h c name cyl e,
        cq_cylinder env h r = Ok cyl ->
        exporters_export env cyl
          (os_path_join env (temp_dir env) (name +:+ ".stl")) None = Raise e ->
        exists st',
          create_cylinder env r h c (Some name) st = (Raise e, st')
          /\ workspaces st' !! current_workspace_id st'
             = Some (register name (CylinderObj r h c (Some cyl)) ws)
          /\ fs st' = fs st).
Proof.
  intros Hcq Hws. split; [|split; [|split]].
  - intros w l h c name e He. unfold create_box. run_M.
    by rewrite Hws, Hcq, He.
  - intros r h c name e He. unfold create_cylinder. run_M.
    by rewrite Hws, Hcq, He.
  - intros w l h c name box e Hb He. unfold create_box. run_M.
    rewrite Hws, Hcq, Hb. simpl. rewrite He. simpl.
    eexists. split; [done|]. simpl.
    by rewrite (lookup_alter_register _ _ _ _ Hws).
  - intros r h c name cyl e Hb He. unfold create_cylinder. run_M.
    rewrite Hws, Hcq, Hb. simpl. rewrite He. simpl.
    eexists. split; [done|]. simpl.
    by rewrite (lookup_alter_register _ _ _ _ Hws).
Qed.

Lemma kernel_creation_failures_witness :
  exists st',
    create_cylinder failing_export_env one one true (Some "c1")
      (initial_state failing_export_env)
    = (Raise (Exception "disk full"), st')
    /\ workspaces st' !! current_workspace_id st'
       = Some (register "c1" (CylinderObj one one true (Some (PyObj 2)))
                 empty_workspace)
    /\ fs st' = fs (initial_state failing_export_env).
Proof.
  destruct (kernel_creation_failures failing_export_env
              (initial_state failing_export_env) empty_workspace)
    as (_ & _ & _ & H); [reflexivity | vm_compute; reflexivity |].
  apply (H one one true "c1" (PyObj 2) (Exception "disk full"));
    reflexivity.
Defined.

(** X10.  [create_cylinder] never passes [centered] to the kernel: for
    either value of the flag the outcome, the files and the registered
    shape are the same; only the flag stored with the object differs. *)
Theorem create_cylinder_centered_irrelevant env st ws r h name c c' :
  workspaces st !! current_workspace_id st = Some ws ->
  returned (create_cylinder env r h c name st)
  = returned (create_cylinder env r h c' name st)
  /\ fs (state_after (create_cylinder env r h c name st))
     = fs (state_after (create_cylinder env r h c' name st))
  /\ forall ws1 ws2,
       workspaces (state_after (create_cylinder env r h c name st))
         !! current_workspace_id st = Some ws1 ->
       workspaces (state_after (create_cylinder env r h c' name st))
         !! current_workspace_id st = Some ws2 ->
       PyDict.keys (objects ws1) = PyDict.keys (objects ws2)
       /\ current_object ws1 = current_object ws2
       /\ forall id,
            workplane_key <$> PyDict.get id (objects ws1)
            = workplane_key <$> PyDict.get id (objects ws2).
Proof.
  intros Hws. unfold create_cylinder. run_M. rewrite Hws. simpl.
  repeat (break_match; simpl in * ); simplify_eq; simpl.
  all: split; [done|]; split; [done|]; intros ws1 ws2.
  all: rewrite ?(lookup_alter_register _ _ _ _ Hws), ?Hws.
  all: intros [= <-] [= <-]; simpl; rewrite ?keys_set.
  all: split; [done|]; split; [done|]; intros id.
  all: try done.
  all: match goal with
       | |- context [PyDict.set ?n _ _] =>
           destruct (decide (n = id)) as [->|Hne];
           [by rewrite !get_set_eq | by rewrite !get_set_ne]
       end.
Qed.

Lemma create_cylinder_centered_irrelevant_witness :
  returned (create_cylinder (kernel_env "" "solid") one one true None
              (one_box (kernel_env "" "solid")))
  = returned (create_cylinder (kernel_env "" "solid") one one false None
                (one_box (kernel_env "" "solid"))).
Proof.
  refine (proj1 (create_cylinder_centered_irrelevant (kernel_env "" "solid")
                   (one_box (kernel_env "" "solid"))
                   {| objects :=
                        [("b1", BoxObj one one one true (Some (PyObj 1)))];
                      current_object := Some "b1" |}
                   one one None true false _)).
  vm_compute. reflexivity.
Defined.

(** X11.  A returning [create_box] with an explicit name stores exactly
    the given dimensions and flag under that name and makes it current;
    every other entry is untouched.  A name that was already registered
    is overwritten in place (same position, same count); a new name goes
    last and the count grows by one. *)
Theorem create_box_registers_or_overwrites env st ws w l h c name d st' :
  workspaces st !! current_workspace_id st = Some ws ->
  create_box env w l h c (Some name) st = (Ok d, st') ->
  exists ws' wp,
    workspaces st' !! current_workspace_id st' = Some ws'
    /\ PyDict.get name (objects ws') = Some (BoxObj w l h c wp)
    /\ current_object ws' = Some name
    /\ (forall other, other <> name ->
          PyDict.get other (objects ws') = PyDict.get other (objects ws))
    /\ PyDict.keys (objects ws')
       = (if PyDict.mem name (objects ws) then PyDict.keys (objects ws)
          else PyDict.keys (objects ws) ++ [name])%list
    /\ PyDict.len (objects ws')
       = if PyDict.mem name (objects ws) then PyDict.len (objects ws)
         else S (PyDict.len (objects ws)).
Proof.
  intros Hws Hcall.
  destruct (create_box_returned _ _ _ _ _ _ _ _ _ _ Hws Hcall)
    as (_ & Hid & wp & Hws').
  rewrite <- Hid in Hws'. eexists _, wp. split; [exact Hws'|]. simpl.
  split; [by rewrite get_set_eq|]. split; [done|].
  split; [intros other Hne; by rewrite get_set_ne|].
  split; [apply keys_set | apply len_set].
Qed.

Lemma create_box_registers_or_overwrites_witness :
  exists ws' wp,
    workspaces
      (state_after (create_box mock_env one one one false (Some "a")
                      (two_boxes mock_env))) !! "default" = Some ws'
    /\ PyDict.get "a" (objects ws') = Some (BoxObj one one one false wp)
    /\ PyDict.keys (objects ws') = ["a"; "b"]
    /\ PyDict.len (objects ws') = 2.
Proof.
  edestruct (create_box_registers_or_overwrites mock_env (two_boxes mock_env))
    with (name := "a") (c := false) (w := one) (l := one) (h := one)
    as (ws' & wp & Hws' & Hget & _ & _ & Hkeys & Hlen).
  - vm_compute. reflexivity.
  - vm_compute. reflexivity.
  - exists ws', wp. split; [exact Hws'|]. split; [exact Hget|].
    split; [exact Hkeys | exact Hlen].
Defined.

(** ** Boolean operations and scripts *)

(** X12.  With the kernel available, [boolean_operation] hands the
    target's workplane and the tool's workplane, in that order, to
    [union] for "union", to [cut] for "subtract" and to [intersect] for
    "intersect".  If the kernel call raises, the exception leaves the tool
    and the state is untouched; otherwise its result is what is registered
    under the new name, whether or not the preview export then succeeds. *)
Theorem boolean_operation_kernel_dispatch
    env st ws target tool name t u wt wu :
  CADQUERY_AVAILABLE env = true ->
  workspaces st !! current_workspace_id st = Some ws ->
  PyDict.get target (objects ws) = Some t -> workplane_key t = Some wt ->
  PyDict.get tool (objects ws) = Some u -> workplane_key u = Some wu ->
  let outcome operation kernel_call :=
    match kernel_call with
    | Raise e =>
        boolean_operation env operation target tool (Some name) st
        = (Raise e, st)
    | Ok result =>
        let st' :=
          state_after
            (boolean_operation env operation target tool (Some name) st) in
        workspaces st' !! current_workspace_id st'
        = Some (register name
                  (BooleanObj operation target tool (Some result)) ws)
    end in
  outcome "union" (cq_union env wt wu)
  /\ outcome "subtract" (cq_cut env wt wu)
  /\ outcome "intersect" (cq_intersect env wt wu).
Proof.
  intros Hcq Hws Ht Hwt Hu Hwu outcome. subst outcome. simpl.
  split; [|split].
  all: unfold boolean_operation, boolean_dispatch, getitem, getitem_workplane;
    run_M; rewrite Hws; simpl; unfold PyDict.mem;
    rewrite Ht, Hu, Hcq, Hwt, Hwu; simpl.
  all: match goal with
       | |- match ?k with _ => _ end => destruct k as [result|e]; simpl
       end; [|done].
  all: repeat (break_match; simpl in * ); simpl;
    by rewrite (lookup_alter_register _ _ _ _ Hws).
Qed.

Lemma boolean_operation_kernel_dispatch_witness :
  workspaces
    (state_after
       (boolean_operation (kernel_env "" "solid") "subtract" "a" "b"
          (Some "hole") (two_boxes (kernel_env "" "solid"))))
    !! "default"
  = Some (register "hole" (BooleanObj "subtract" "a" "b" (Some (PyObj 4)))
            {| objects := [("a", BoxObj one one one true (Some (PyObj 1)));
                           ("b", BoxObj one one one true (Some (PyObj 1)))];
               current_object := Some "b" |}).
Proof.
  refine (proj1 (proj2 (boolean_operation_kernel_dispatch
                          (kernel_env "" "solid")
                          (two_boxes (kernel_env "" "solid")) _
                          "a" "b" "hole"
                          (BoxObj one one one true (Some (PyObj 1)))
                          (BoxObj one one one true (Some (PyObj 1)))
                          (PyObj 1) (PyObj 1) _ _ _ _ _ _))).
  - reflexivity.
  - vm_compute. reflexivity.
  - reflexivity.
  - reflexivity.
  - reflexivity.
  - reflexivity.
Defined.

(** X13.  Nothing stops a boolean result from taking the name of its own
    target: on success the target's entry is replaced in place by the
    result, which then names itself as its target, and the object count
    and the order of names are unchanged. *)
Theorem boolean_operation_may_overwrite_operand
    env st ws operation target tool d st' :
  workspaces st !! current_workspace_id st = Some ws ->
  boolean_operation env operation target tool (Some target) st = (Ok d, st') ->
  is_success d ->
  exists ws' w,
    workspaces st' !! current_workspace_id st' = Some ws'
    /\ PyDict.get target (objects ws')
       = Some (BooleanObj operation target tool w)
    /\ PyDict.len (objects ws') = PyDict.len (objects ws)
    /\ PyDict.keys (objects ws') = PyDict.keys (objects ws).
Proof.
  intros Hws. unfold boolean_operation, boolean_dispatch, getitem,
    getitem_workplane. run_M. rewrite Hws. simpl.
  destruct (PyDict.mem target (objects ws)) eqn:Hmem; simpl;
    [|intros [= <- <-] Hs; destruct (error_payload_not_success _ Hs)].
  repeat (break_match; simpl in * ); intros Hcall Hs; simplify_eq;
    try (destruct (error_payload_not_success _ Hs)).
  all: eexists _, _; simpl.
  all: split; [by rewrite (lookup_alter_register _ _ _ _ Hws)|]; simpl.
  all: split; [by rewrite get_set_eq|].
  all: by rewrite len_set, keys_set, Hmem.
Qed.

Lemma boolean_operation_may_overwrite_operand_witness :
  exists ws' w,
    workspaces
      (state_after (boolean_operation mock_env "union" "a" "b" (Some "a")
                      (two_boxes mock_env))) !! "default" = Some ws'
    /\ PyDict.get "a" (objects ws') = Some (BooleanObj "union" "a" "b" w)
    /\ PyDict.len (objects ws') = 2
    /\ PyDict.keys (objects ws') = ["a"; "b"].
Proof.
  edestruct (boolean_operation_may_overwrite_operand mock_env
               (two_boxes mock_env))
    with (operation := "union") (target := "a") (tool := "b")
    as (ws' & w & H1 & H2 & H3 & H4).
  - vm_compute. reflexivity.
  - vm_compute. reflexivity.
  - reflexivity.
  - exists ws', w. split; [exact H1|]. split; [exact H2|].
    split; [exact H3 | exact H4].
Defined.



(** X15.  In mock mode [execute_cq_script] never evaluates the script:
    whatever the text, a returning call is a success that has stored the
    text unevaluated, with no workplane, and written the mock preview. *)
Theorem execute_cq_script_mock_stores_unevaluated env st ws script name :
  CADQUERY_AVAILABLE env = false ->
  workspaces st !! current_workspace_id st = Some ws ->
  forall d st',
    execute_cq_script env script (Some name) st = (Done (Ok d), st') ->
    is_success d
    /\ workspaces st' !! current_workspace_id st'
       = Some (register name (ScriptObj script None) ws)
    /\ fs st' = <[os_path_join env (temp_dir env) (name +:+ ".stl")
                  := "Mock STL file content from script"]> (fs st).
Proof.
  intros Hcq Hws d st'. unfold execute_cq_script. run_M.
  rewrite Hws, Hcq. simpl.
  destruct (os_open_w env _) as [[]|e]; simpl; intros [= <- <-]; simpl.
  split; [done|]. by rewrite (lookup_alter_register _ _ _ _ Hws).
Qed.

Lemma execute_cq_script_mock_stores_unevaluated_witness :
  exists d st',
    execute_cq_script mock_env "raise ValueError" (Some "s1")
      (initial_state mock_env) = (Done (Ok d), st')
    /\ is_success d
    /\ workspaces st' !! current_workspace_id st'
       = Some (register "s1" (ScriptObj "raise ValueError" None)
                 empty_workspace).
Proof.
  eexists _, _. split; [vm_compute; reflexivity|].
  edestruct (execute_cq_script_mock_stores_unevaluated mock_env
               (initial_state mock_env) empty_workspace
               "raise ValueError" "s1") as (Hs & Hw & _).
  - reflexivity.
  - vm_compute. reflexivity.
  - vm_compute. reflexivity.
  - split; [exact Hs | exact Hw].
Defined.

(** ** Rendering *)



(** ** More on export *)

(** X17.  The [validate] flag matters only for a STEP-family format with
    the kernel available: in mock mode, and for every other format, the
    call with [validate] set and the call without it are the same. *)
Theorem validate_matters_only_for_kernel_step env name format st :
  CADQUERY_AVAILABLE env = false
  \/ (lower format <> "step" /\ lower format <> "stp") ->
  export_object env name format true st
  = export_object env name format false st.
Proof.
  intros H. unfold export_object. run_M.
  destruct (workspaces st !! current_workspace_id st) as [ws|]; simpl; [|done].
  destruct (negb (PyDict.mem name (objects ws))); simpl; [done|].
  destruct H as [-> | [H1 H2]]; [done|].
  apply String.eqb_neq in H1, H2. rewrite H1, H2. simpl.
  by destruct (CADQUERY_AVAILABLE env).
Qed.

Lemma validate_matters_only_for_kernel_step_witness :
  export_object (kernel_env "" "") "b1" "STL" true (one_box (kernel_env "" ""))
  = export_object (kernel_env "" "") "b1" "STL" false
      (one_box (kernel_env "" "")).
Proof.
  apply validate_matters_only_for_kernel_step. right. by split.
Defined.

(** X18.  [export_step] is not atomic: with the kernel available, when
    the STEP export (of the solid found in the workplane, or of the
    workplane itself when it offers none) returns and the STL preview
    export then raises, the call answers with an error although the STEP
    artifact has been written at its destination (an export that returns
    having written its file, as [Env] has it). *)
Theorem export_step_partial_failure
    env st ws name obj filepath shape content e :
  CADQUERY_AVAILABLE env = true ->
  workspaces st !! current_workspace_id st = Some ws ->
  PyDict.get name (objects ws) = Some obj ->
  (if has_val_and_findSolid env (get_workplane obj)
   then cq_findSolid env (get_workplane obj) = Ok shape
   else shape = get_workplane obj) ->
  let output_path :=
    match filepath with
    | Some p =>
        if String.eqb p "" then
          os_path_join env (temp_dir env) (name +:+ ".step")
        else step_path p
    | None => os_path_join env (temp_dir env) (name +:+ ".step")
    end in
  exporters_export env shape output_path (Some STEP) = Ok content ->
  exporters_export env (get_workplane obj)
    (os_path_join env (temp_dir env) (name +:+ ".stl")) None = Raise e ->
  export_step env name filepath st
  = (Ok (error_payload ("STEP export failed: " +:+ str_exn e)),
     put_file output_path content st).
Proof.
  intros Hcq Hws Hobj Hshape output_path H1 H2. subst output_path.
  unfold export_step, export_as_step, getitem, step_path in *. run_M.
  rewrite Hws. simpl.
  unfold PyDict.mem. rewrite Hobj, Hcq. simpl.
  destruct (has_val_and_findSolid env (get_workplane obj)).
  - rewrite Hshape. simpl.
    destruct filepath as [p|]; simpl in *.
    + destruct (String.eqb p ""); simpl in *.
      * rewrite H1. simpl. by rewrite H2.
      * destruct (endswith ".step" (lower p) || endswith ".stp" (lower p));
          simpl in *; rewrite H1; simpl; by rewrite H2.
    + rewrite H1. simpl. by rewrite H2.
  - subst shape.
    destruct filepath as [p|]; simpl in *.
    + destruct (String.eqb p ""); simpl in *.
      * rewrite H1. simpl. by rewrite H2.
      * destruct (endswith ".step" (lower p) || endswith ".stp" (lower p));
          simpl in *; rewrite H1; simpl; by rewrite H2.
    + rewrite H1. simpl. by rewrite H2.
Qed.

Lemma export_step_partial_failure_witness :
  export_step mesh_failing_env "b1" (Some "/out/part")
    (one_box mesh_failing_env)
  = (Ok (error_payload "STEP export failed: mesh export failed"),
     put_file "/out/part.step" "ISO-10303-21;" (one_box mesh_failing_env)).
Proof.
  eapply (export_step_partial_failure mesh_failing_env
            (one_box mesh_failing_env)
            _ "b1" _ (Some "/out/part") (PyObj 1) "ISO-10303-21;"
            (Exception "mesh export failed")).
  - reflexivity.
  - vm_compute. reflexivity.
  - vm_compute. reflexivity.
  - reflexivity.
  - reflexivity.
  - reflexivity.
Defined.

(** What [diagnose_cq_editor] returns has neither [status] nor
    [message]. *)
Lemma diagnose_cq_editor_untagged env st d st' :
  diagnose_cq_editor env st = (Ok d, st') ->
  PyDict.get "status" d = None /\ PyDict.get "message" d = None.
Proof.
  unfold diagnose_cq_editor. generalize (search_paths env). intros dirs.
  unfold mbind, M_bind, mret, M_ret.
  destruct (search env dirs st) as [[l|e] st1]; simpl; [|done].
  by destruct (find_spec (installation env) "cq_editor") as [[o|]|e];
    intros [= <- <-].
Qed.

(** X19.  Every path that a successful answer of any tool lists under
    [files] names a file that exists when the tool returns. *)
Theorem reported_files_exist env op st d st' :
  call env op st = (Done (Ok d), st') ->
  is_success d ->
  forall key path,
    PyDict.get key (files_of d) = Some path -> is_Some (fs st' !! path).
Proof.
  destruct op; simpl.
  11: { unfold answered.
        destruct (diagnose_cq_editor env st) as [[d0|e] st0] eqn:E;
          intros [= <- <-] Hs.
        apply diagnose_cq_editor_untagged in E as [E _].
        unfold is_success in Hs. congruence. }
  all: unfold_tools; unfold getitem, getitem_workplane; run_M;
    repeat (break_match; simpl in * ); intros Hcall Hs key path;
    simplify_eq; simpl;
    try (destruct (error_payload_not_success _ Hs)); try done.
  all: unfold files_of; simpl.
  all: repeat (break_match; simpl in * ); intros; simplify_eq.
  all: rewrite ?lookup_insert_eq; eauto.
  all: rewrite lookup_insert; case_decide; rewrite ?lookup_insert_eq; eauto.
Qed.

Lemma reported_files_exist_witness :
  exists d st',
    call mock_env (ExportStep "b1" (Some "/out/part")) (one_box mock_env)
    = (Done (Ok d), st')
    /\ is_Some (fs st' !! "/out/part.step")
    /\ is_Some (fs st' !! "/tmp/cadquery_mcp_a/b1.stl").
Proof.
  assert (Hcall : call mock_env (ExportStep "b1" (Some "/out/part"))
                    (one_box mock_env)
                  = (Done (Ok (export_step_success mock_env "b1"
                                 "/out/part.step")),
                     state_after
                       (call mock_env (ExportStep "b1" (Some "/out/part"))
                          (one_box mock_env)))).
  { vm_compute. reflexivity. }
  eexists _, _. split; [exact Hcall|]. split.
  - apply (reported_files_exist _ _ _ _ _ Hcall eq_refl "step"). reflexivity.
  - apply (reported_files_exist _ _ _ _ _ Hcall eq_refl "stl"). reflexivity.
Defined.

(** X20.  For a non-empty [filepath], the STEP destination a successful
    [export_step] reports is [filepath] itself or [filepath] with [.step]
    appended, it ends, case-insensitively, in [.step] or [.stp], and it is
    a fixed point: a successful call given the reported path reports that
    same path. *)
Theorem export_step_path_has_step_suffix env st name filepath d st' :
  filepath <> "" ->
  export_step env name (Some filepath) st = (Ok d, st') ->
  is_success d ->
  exists out,
    PyDict.get "step" (files_of d) = Some out
    /\ endswith ".step" (lower out) || endswith ".stp" (lower out) = true
    /\ (out = filepath \/ out = filepath +:+ ".step")
    /\ forall d2 st2,
         export_step env name (Some out) st = (Ok d2, st2) ->
         is_success d2 ->
         PyDict.get "step" (files_of d2) = Some out.
Proof.
  intros Hne Hcall Hs. exists (step_path filepath).
  assert (Hout : step_path filepath <> "").
  { unfold step_path. destruct (_ || _); [done|]. by destruct filepath. }
  assert (Hgen : forall p d st',
             p <> "" ->
             export_step env name (Some p) st = (Ok d, st') ->
             is_success d ->
             PyDict.get "step" (files_of d) = Some (step_path p)).
  { clear. intros p d st' Hp. apply String.eqb_neq in Hp.
    assert (Hsp : String.eqb (step_path p) "" = false).
    { apply String.eqb_neq. apply String.eqb_neq in Hp.
      unfold step_path. destruct (_ || _); [done|]. by destruct p. }
    unfold export_step, getitem. run_M.
    destruct (workspaces st !! current_workspace_id st) as [ws|]; simpl;
      [|done].
    destruct (negb (PyDict.mem name (objects ws))); simpl.
    { intros [= <- <-] Hs. destruct (error_payload_not_success _ Hs). }
    rewrite Hp. fold (step_path p).
    replace (if negb (endswith ".step" (lower p) || endswith ".stp" (lower p))
             then p +:+ ".step" else p) with (step_path p)
      by (unfold step_path; by destruct (_ || _)).
    rewrite Hsp.
    repeat (break_match; simpl in * ); intros Hc Hs; simplify_eq;
      try (destruct (error_payload_not_success _ Hs)); done. }
  split; [by eapply Hgen|]. split; [apply step_path_suffix|].
  split; [unfold step_path; destruct (_ || _); by eauto|].
  intros d2 st2 Hc2 Hs2. rewrite (Hgen _ _ _ Hout Hc2 Hs2).
  f_equal. unfold step_path at 1. by rewrite step_path_suffix.
Qed.

Lemma export_step_path_has_step_suffix_witness :
  exists out,
    PyDict.get "step"
      (files_of (export_step_success mock_env "b1" "/out/Part.STP"))
    = Some out
    /\ endswith ".step" (lower out) || endswith ".stp" (lower out) = true.
Proof.
  edestruct (export_step_path_has_step_suffix mock_env (one_box mock_env)
               "b1" "/out/Part.STP") as (out & H1 & H2 & _).
  - done.
  - vm_compute. reflexivity.
  - reflexivity.
  - exists out. split; [exact H1 | exact H2].
Defined.

(** ** Editor bridge *)

(** X22.  Script round trip: when the script file can be written and read,
    [update_cq_script] succeeds, reports the script file, touches no
    workspace, and, for a script of ASCII characters without carriage
    return, a following [sync_object_from_editor] returns exactly the text
    just written.  When the file cannot be opened for writing the tool
    answers with an error instead of raising and leaves the state as it
    was. *)
Theorem update_cq_script_then_sync env st ws script name :
  workspaces st !! current_workspace_id st = Some ws ->
  (plain_text script = true ->
   os_open_w env (script_file env) = Ok tt ->
   os_open_r env (script_file env) = Ok tt ->
   exists d1 st1 d2,
     update_cq_script env script st = (Ok d1, st1)
     /\ is_success d1
     /\ PyDict.get "script_file" d1 = Some (VStr (script_file env))
     /\ workspaces st1 = workspaces st
     /\ current_workspace_id st1 = current_workspace_id st
     /\ sync_object_from_editor env name st1 = (Ok d2, st1)
     /\ is_success d2
     /\ PyDict.get "script" d2 = Some (VStr script))
  /\ (forall e,
        os_open_w env (script_file env) = Raise e ->
        exists d,
          update_cq_script env script st = (Ok d, st) /\ is_error d).
Proof.
  intros Hws. split.
  - intros _ Hw Hr. unfold update_cq_script, update_script. run_M. rewrite Hw.
    simpl. eexists _, _, _. split; [done|]. split; [done|]. split; [done|].
    split; [done|]. split; [done|].
    unfold sync_object_from_editor. run_M. rewrite Hws, Hr.
    simpl. by rewrite lookup_insert_eq.
  - intros e Hw. unfold update_cq_script, update_script. run_M. rewrite Hw.
    simpl. by eexists.
Qed.

Lemma update_cq_script_then_sync_witness :
  exists d1 st1 d2,
    update_cq_script mock_env "result = cq.Workplane('XY').box(1, 2, 3)"
      (one_box mock_env) = (Ok d1, st1)
    /\ sync_object_from_editor mock_env (Some "edited") st1 = (Ok d2, st1)
    /\ PyDict.get "script" d2
       = Some (VStr "result = cq.Workplane('XY').box(1, 2, 3)").
Proof.
  edestruct (update_cq_script_then_sync mock_env (one_box mock_env))
    with (script := "result = cq.Workplane('XY').box(1, 2, 3)")
         (name := Some "edited") as [H _].
  - vm_compute. reflexivity.
  - destruct H as (d1 & st1 & d2 & H1 & _ & _ & _ & _ & H2 & _ & H3);
      [reflexivity | reflexivity | reflexivity |].
    exists d1, st1, d2. split; [exact H1|]. split; [exact H2 | exact H3].
Defined.

(** The candidate loop of [start_cq_editor]: it stops at the first
    candidate that launches, and otherwise has tried them all. *)
Lemma try_paths_spec env host paths process :
  match CQEditorBridge.try_paths env host paths process with
  | (true, process', log) =>
      exists before path after p,
        paths = (before ++ path :: after)%list
        /\ launches env host path p
        /\ (forall path' p', path' ∈ before -> ~ launches env host path' p')
        /\ process' = Some p
        /\ log = (CQEditorBridge.command env <$> (before ++ [path]))%list
  | (false, process', log) =>
      (forall path p, path ∈ paths -> ~ launches env host path p)
      /\ log = CQEditorBridge.command env <$> paths
      /\ (process' = process
          \/ exists p, process' = Some p /\ poll host p <> None)
  end.
Proof.
  revert process. induction paths as [|path rest IH]; intros process; simpl.
  - split; [intros ?? H; by apply elem_of_nil in H|]. split; [done|by left].
  - destruct (Popen host (CQEditorBridge.command env path)) as [p|e] eqn:Hp.
    + destruct (poll host p) as [code|] eqn:Hpoll.
      * specialize (IH (Some p)).
        destruct (CQEditorBridge.try_paths env host rest (Some p))
          as [[[] process'] log].
        -- destruct IH
             as (before & path0 & after & p0 & -> & Hl & Hb & -> & ->).
           exists (path :: before), path0, after, p0.
           split; [done|]. split; [done|]. split; [|done].
           intros path' p' [->|Hin]%elem_of_cons; [|by apply Hb].
           intros [Hq Hq']. congruence.
        -- destruct IH as (Hnone & -> & Hproc). split; [|split; [done|]].
           ++ intros path' p' [->|Hin]%elem_of_cons; [|by apply Hnone].
              intros [Hq Hq']. congruence.
           ++ right. destruct Hproc as [-> | (q & -> & Hq)].
              ** exists p. split; [done|]. congruence.
              ** by exists q.
      * exists [], path, rest, p. split; [done|]. split; [done|].
        split; [intros ?? H; by apply elem_of_nil in H|]. done.
    + specialize (IH process).
      destruct (CQEditorBridge.try_paths env host rest process)
        as [[[] process'] log].
      * destruct IH
          as (before & path0 & after & p0 & -> & Hl & Hb & -> & ->).
        exists (path :: before), path0, after, p0.
        split; [done|]. split; [done|]. split; [|done].
        intros path' p' [->|Hin]%elem_of_cons; [|by apply Hb].
        intros [Hq Hq']. congruence.
      * destruct IH as (Hnone & -> & Hproc). split; [|split; [done|done]].
        intros path' p' [->|Hin]%elem_of_cons; [|by apply Hnone].
        intros [Hq Hq']. congruence.
Qed.

(** X23.  [start_cq_editor] answers [True] exactly when the handle it
    leaves names a running process.  An editor that is already running is
    kept and nothing is spawned.  Otherwise the candidates are spawned in
    order up to and including the first one that is still running after
    the grace period, which becomes the handle; when none is, all four
    have been spawned and the answer is [False]. *)
Theorem start_cq_editor_first_live_candidate env host process :
  let '(started, process', log) :=
    CQEditorBridge.start_cq_editor env host process in
  (started = true <-> exists p, process' = Some p /\ poll host p = None)
  /\ ((exists p, process = Some p /\ poll host p = None) ->
      started = true /\ process' = process /\ log = [])
  /\ (~ (exists p, process = Some p /\ poll host p = None) ->
      if started then
        exists before path after,
          CQEditorBridge.potential_paths env host
          = (before ++ path :: after)%list
          /\ (exists p, launches env host path p /\ process' = Some p)
          /\ (forall path' p',
                path' ∈ before -> ~ launches env host path' p')
          /\ log = (CQEditorBridge.command env <$> (before ++ [path]))%list
      else
        (forall path p,
           path ∈ CQEditorBridge.potential_paths env host ->
           ~ launches env host path p)
        /\ log
           = CQEditorBridge.command env
               <$> CQEditorBridge.potential_paths env host).
Proof.
  assert (Hloop : forall process,
             ~ (exists p, process = Some p /\ poll host p = None) ->
             let '(started, process', log) :=
               CQEditorBridge.try_paths env host
                 (CQEditorBridge.potential_paths env host) process in
             (started = true
              <-> exists p, process' = Some p /\ poll host p = None)
             /\ if started then
                  exists before path after,
                    CQEditorBridge.potential_paths env host
                    = (before ++ path :: after)%list
                    /\ (exists p, launches env host path p
                                  /\ process' = Some p)
                    /\ (forall path' p',
                          path' ∈ before -> ~ launches env host path' p')
                    /\ log = (CQEditorBridge.command env
                                <$> (before ++ [path]))%list
                else
                  (forall path p,
                     path ∈ CQEditorBridge.potential_paths env host ->
                     ~ launches env host path p)
                  /\ log
                     = CQEditorBridge.command env
                         <$> CQEditorBridge.potential_paths env host).
  { intros process0 Hnot.
    pose proof (try_paths_spec env host
                  (CQEditorBridge.potential_paths env host) process0) as H.
    destruct (CQEditorBridge.try_paths env host
                (CQEditorBridge.potential_paths env host) process0)
      as [[[] process'] log].
    - destruct H as (before & path & after & p & Hp & Hl & Hb & -> & ->).
      split.
      + split; [intros _|done]. exists p. split; [done|]. by destruct Hl.
      + exists before, path, after. split; [done|]. split; [by exists p|].
        by split.
    - destruct H as (Hnone & -> & Hproc). split; [|by split].
      split; [done|]. intros (p & -> & Hp). exfalso.
      destruct Hproc as [<- | (q & [= <-] & Hq)]; [|done].
      apply Hnot. by exists p. }
  unfold CQEditorBridge.start_cq_editor.
  destruct process as [p|].
  - destruct (poll host p) as [code|] eqn:Hpoll.
    + assert (Hnot : ~ (exists q, Some p = Some q /\ poll host q = None)).
      { intros (q & [= <-] & Hq). congruence. }
      specialize (Hloop (Some p) Hnot).
      destruct (CQEditorBridge.try_paths env host
                  (CQEditorBridge.potential_paths env host) (Some p))
        as [[started process'] log].
      destruct Hloop as [H1 H2]. split; [done|]. split; [done|]. by intros _.
    + split; [split; [intros _; by exists p|done]|]. split; [done|].
      intros []. by exists p.
  - assert (Hnot : ~ (exists q, @None nat = Some q /\ poll host q = None)).
    { by intros (q & [=] & _). }
    specialize (Hloop None Hnot).
    destruct (CQEditorBridge.try_paths env host
                (CQEditorBridge.potential_paths env host) None)
      as [[started process'] log].
    destruct Hloop as [H1 H2]. split; [done|].
    split; [by intros (q & [=] & _)|]. by intros _.
Qed.

Lemma start_cq_editor_first_live_candidate_witness :
  CQEditorBridge.start_cq_editor mock_env second_candidate_host None
  = (true, Some 2,
     [["cq-editor"; "/tmp/cadquery_mcp_b/current_script.py"];
      ["/usr/Scripts/cq-editor.exe"; "/tmp/cadquery_mcp_b/current_script.py"]])
  /\ poll second_candidate_host 2 = None.
Proof.
  pose proof (start_cq_editor_first_live_candidate mock_env
                second_candidate_host None) as H.
  assert (E : CQEditorBridge.start_cq_editor mock_env second_candidate_host
                None
              = (true, Some 2,
                 [["cq-editor"; "/tmp/cadquery_mcp_b/current_script.py"];
                  ["/usr/Scripts/cq-editor.exe";
                   "/tmp/cadquery_mcp_b/current_script.py"]])).
  { vm_compute. reflexivity. }
  rewrite E in H. destruct H as [[H _] _].
  destruct (H eq_refl) as (p & Hp & Hpoll).
  injection Hp as <-. split; [exact E | exact Hpoll].
Defined.

(** X24.  [stop_cq_editor] never raises and signals only the process in
    the handle: nothing is sent when there is none, [terminate] comes
    first otherwise, and [kill] is sent exactly when the answer is
    [False], that is when [terminate] or the five-second [wait] raised. *)
Theorem stop_cq_editor_signals host process :
  let '(stopped, signals) := CQEditorBridge.stop_cq_editor host process in
  (forall s, s ∈ signals ->
     exists p, process = Some p
               /\ (s = Terminate p \/ s = Wait p \/ s = Kill p))
  /\ (process = None -> stopped = true /\ signals = [])
  /\ (forall p, process = Some p ->
        head signals = Some (Terminate p)
        /\ (stopped = false <-> Kill p ∈ signals)
        /\ (stopped = true
            <-> terminate host p = Ok tt /\ wait host p = Ok tt)).
Proof.
  unfold CQEditorBridge.stop_cq_editor. destruct process as [p|].
  - assert (Hsent : forall s (signals : list Signal),
               s ∈ signals ->
               (forall s', s' ∈ signals -> s' ∈ [Terminate p; Wait p; Kill p]) ->
               exists q, Some p = Some q
                         /\ (s = Terminate q \/ s = Wait q \/ s = Kill q)).
    { intros s signals Hin Hsub. exists p. split; [done|].
      apply Hsub in Hin.
      apply elem_of_cons in Hin as [->|Hin]; [by left|].
      apply elem_of_cons in Hin as [->|Hin]; [by right; left|].
      apply elem_of_cons in Hin as [->|Hin]; [by right; right|].
      by apply elem_of_nil in Hin. }
    destruct (terminate host p) as [[]|e] eqn:Ht.
    + destruct (wait host p) as [[]|e] eqn:Hw; (split; [|split; [done|]]).
      * intros s Hin. apply (Hsent s _ Hin). intros s' Hs'.
        apply elem_of_cons in Hs' as [->|Hs']; [by left|].
        apply elem_of_cons in Hs' as [->|Hs']; [by right; left|].
        by apply elem_of_nil in Hs'.
      * intros q [= <-]. split; [done|]. split.
        -- split; [done|]. intros Hin.
           apply elem_of_cons in Hin as [?|Hin]; [done|].
           apply elem_of_cons in Hin as [?|Hin]; [done|].
           by apply elem_of_nil in Hin.
        -- split; [intros _; by split|done].
      * intros s Hin. by apply (Hsent s _ Hin).
      * intros q [= <-]. split; [done|]. split.
        -- split; [intros _|done]. by right; right; left.
        -- split; [done|]. intros [_ ?]. congruence.
    + split; [|split; [done|]].
      * intros s Hin. apply (Hsent s _ Hin). intros s' Hs'.
        apply elem_of_cons in Hs' as [->|Hs']; [by left|].
        apply elem_of_cons in Hs' as [->|Hs']; [by right; right; left|].
        by apply elem_of_nil in Hs'.
      * intros q [= <-]. split; [done|]. split.
        -- split; [intros _|done]. by right; left.
        -- split; [done|]. intros [? _]. congruence.
  - split; [intros s Hin; by apply elem_of_nil in Hin|]. by split.
Qed.

Lemma stop_cq_editor_signals_witness :
  CQEditorBridge.stop_cq_editor second_candidate_host (Some 2)
  = (false, [Terminate 2; Wait 2; Kill 2])
  /\ Kill 2 ∈ [Terminate 2; Wait 2; Kill 2].
Proof.
  pose proof (stop_cq_editor_signals second_candidate_host (Some 2)) as H.
  assert (E : CQEditorBridge.stop_cq_editor second_candidate_host (Some 2)
              = (false, [Terminate 2; Wait 2; Kill 2])).
  { vm_compute. reflexivity. }
  rewrite E in H. destruct H as (_ & _ & H).
  destruct (H 2 eq_refl) as (_ & [Hkill _] & _).
  split; [exact E | exact (Hkill eq_refl)].
Defined.

(** X25.  [save_model] never raises and never touches a workspace.  It
    returns the empty string or the STEP path in the bridge's directory,
    and the STEP path only after both files were written.  It is not
    atomic: when the STEP export returns and the STL export raises, the
    answer is the empty string although the STEP file has been written. *)
Theorem save_model_outcomes env object_data name st :
  let step_file := os_path_join env (bridge_temp_dir env) (name +:+ ".step") in
  let stl_file := os_path_join env (bridge_temp_dir env) (name +:+ ".stl") in
  exists path st',
    CQEditorBridge.save_model env object_data name st = (Ok path, st')
    /\ workspaces st' = workspaces st
    /\ current_workspace_id st' = current_workspace_id st
    /\ (path = ""
        \/ (path = step_file
            /\ has_exportStep object_data = true
            /\ is_Some (fs st' !! step_file)
            /\ is_Some (fs st' !! stl_file)))
    /\ (has_exportStep object_data = false -> path = "" /\ st' = st)
    /\ (forall content e,
          has_exportStep object_data = true ->
          exportStep object_data step_file = Ok content ->
          exportStl object_data stl_file = Raise e ->
          path = "" /\ st' = put_file step_file content st).
Proof.
  intros step_file stl_file. subst step_file stl_file.
  unfold CQEditorBridge.save_model, CQEditorBridge.export_method. run_M.
  destruct (has_exportStep object_data); simpl.
  - destruct (exportStep object_data _) as [c1|e1]; simpl.
    + destruct (exportStl object_data _) as [c2|e2]; simpl.
      * eexists _, _. split; [done|]. split; [done|]. split; [done|].
        split; [|split; [done|done]].
        right. split; [done|]. split; [done|]. simpl.
        split; [|by rewrite lookup_insert_eq].
        rewrite lookup_insert. case_decide; [done|].
        by rewrite lookup_insert_eq.
      * eexists _, _. split; [done|]. split; [done|]. split; [done|].
        split; [by left|]. split; [done|].
        by intros content e _ [= <-] _.
    + eexists _, _. split; [done|]. split; [done|]. split; [done|].
      split; [by left|]. split; [done|]. by intros content e _ [=].
  - eexists _, _. split; [done|]. split; [done|]. split; [done|].
    split; [by left|]. split; [done|]. by intros.
Qed.

Lemma save_model_outcomes_witness :
  CQEditorBridge.save_model mock_env step_only_model "part" (one_box mock_env)
  = (Ok "",
     put_file "/tmp/cadquery_mcp_b/part.step" "ISO-10303-21;"
       (one_box mock_env)).
Proof.
  destruct (save_model_outcomes mock_env step_only_model "part"
              (one_box mock_env))
    as (path & st' & E & _ & _ & _ & _ & H).
  destruct (H "ISO-10303-21;" (Exception "mesh export failed")
              eq_refl eq_refl eq_refl) as [-> ->].
  exact E.
Defined.
